(** * PushT experience replay: the dataset build of [lerobot/common/datasets/pusht.py]

    A shallow embedding of [PushtExperienceReplay]: its constructor, the
    existence check [_is_downloaded] and the build [_download_and_preproc]
    (per-frame reward and success labels, pairing of consecutive frames into
    transition records, and the writes into one pre-sized store).

    Python exceptions are an error result, tensors are lists indexed by
    frame, Python floats are binary64 primitive floats, and the file system
    the constructor looks at is an explicit value [World]. The libraries
    around the build are interfaces: [Tensors] (image and action tensors,
    einops, the single-precision store of torch), [Geometry] (pymunk and
    shapely) and [Outside] (the default root directory and the archive
    download). The theorems hold for every instance; the sample instances
    serve to run the build on concrete captures. *)

From Stdlib Require Import String Bool Arith ZArith Lia Floats List.
Import ListNotations.

Set Implicit Arguments.

(** ** Python exceptions *)

Inductive PyError : Type :=
| NotImplementedError
| ValueError
| AssertionError
| IndexError
| RuntimeError
| ZeroDivisionError
| UnboundLocalError
| FileNotFoundError.

Inductive result (A : Type) : Type :=
| Ok (a : A)
| Raise (e : PyError).

Arguments Ok {A} a.
Arguments Raise {A} e.

Definition bind {A B : Type} (r : result A) (k : A -> result B) : result B :=
  match r with
  | Ok a => k a
  | Raise e => Raise e
  end.

Declare Scope py_scope.
Delimit Scope py_scope with py.
Notation "x <- r ;; k" := (bind r (fun x => k))
  (at level 100, r at next level, right associativity) : py_scope.
Notation "' p <- r ;; k" := (bind r (fun p => k))
  (at level 100, p pattern, r at next level, right associativity) : py_scope.

(** [assert c]: raises [AssertionError] when [c] is false. *)
Definition py_assert (c : bool) : result unit :=
  if c then Ok tt else Raise AssertionError.

(** ** Sequences: Python indexing and slicing on non-negative bounds *)

(** [x[a:b]]: bounds past the end are clamped, [b <= a] gives the empty
    sequence. *)
Definition slice {A : Type} (x : list A) (a b : nat) : list A :=
  firstn (b - a) (skipn a x).

(** [x[:-1]] *)
Definition drop_last {A : Type} (x : list A) : list A := removelast x.

(** [x[1:]] *)
Definition drop_first {A : Type} (x : list A) : list A := tl x.

(** [x[i]] read: [IndexError] out of range. *)
Definition getitem {A : Type} (x : list A) (i : nat) : result A :=
  match nth_error x i with
  | Some a => Ok a
  | None => Raise IndexError
  end.

(** [x[i] = v] on a tensor of fixed size: [IndexError] out of range. *)
Fixpoint setitem {A : Type} (x : list A) (i : nat) (v : A) : result (list A) :=
  match x, i with
  | [], _ => Raise IndexError
  | _ :: t, O => Ok (v :: t)
  | h :: t, S j =>
      match setitem t j v with
      | Ok t' => Ok (h :: t')
      | Raise e => Raise e
      end
  end.

(** [x[-1] = v]: [IndexError] on an empty tensor. *)
Definition set_last {A : Type} (x : list A) (v : A) : result (list A) :=
  match x with
  | [] => Raise IndexError
  | _ => Ok (removelast x ++ [v])
  end.

(** ** Floats *)

Open Scope float_scope.

(** [SUCCESS_THRESHOLD = 0.95], the binary64 number nearest to it. *)
Definition SUCCESS_THRESHOLD : float := 0x1.e666666666666p-1.

(** [np.pi] *)
Definition np_pi : float := 0x1.921fb54442d18p+1.

(** Python's [a / b] on floats: [ZeroDivisionError] when [b] is zero of
    either sign. *)
Definition py_truediv (a b : float) : result float :=
  if b =? 0 then Raise ZeroDivisionError else Ok (a / b).

(** numpy's [clip] loop on doubles is [min (max x lo) hi], where both
    [max a b = isnan a ? a : (a > b ? a : b)] and
    [min a b = isnan a ? a : (a < b ? a : b)] hand a NaN first argument
    through. *)
Definition np_max (a b : float) : float :=
  if PrimFloat.is_nan a then a else if b <? a then a else b.

Definition np_min (a b : float) : float :=
  if PrimFloat.is_nan a then a else if a <? b then a else b.

Definition np_clip (x lo hi : float) : float := np_min (np_max x lo) hi.

(** ** Rigid bodies and the T shape *)

Definition Vec2 : Type := (float * float)%type.

(** A convex polygon attached to a body, by its vertices in body
    coordinates ([pymunk.Poly]). *)
Definition Poly : Type := list Vec2.

(** What the build reads or sets on a [pymunk.Body]: the pose and the
    shapes attached to it. Mass, inertia, colour, collision filter, friction
    and centre of gravity are set by the source and given to pymunk, but are
    not read again by the build. *)
Record Body : Type := mkBody {
  body_position : Vec2;
  body_angle : float;
  body_shapes : list Poly
}.

(** [get_goal_pose_body pose]: a free body at [pose[:2]], turned by
    [pose[2]], with no shape attached. *)
Definition get_goal_pose_body (pose : float * float * float) : Body :=
  let '(x, y, theta) := pose in
  mkBody (x, y) theta [].

(** The two rectangles of [add_tee], for [scale] and [length = 4]. *)
Definition tee_vertices1 (scale : float) : Poly :=
  let length := 4 in
  [ (- length * scale / 2, scale);
    (length * scale / 2, scale);
    (length * scale / 2, 0);
    (- length * scale / 2, 0) ].

Definition tee_vertices2 (scale : float) : Poly :=
  let length := 4 in
  [ (- scale / 2, scale);
    (- scale / 2, length * scale);
    (scale / 2, length * scale);
    (scale / 2, scale) ].

(** [add_tee space position angle] with the default [scale = 30]: the body
    carrying both rectangles, placed at [position] and turned by [angle].
    The space only receives the body; nothing is read back from it. *)
Definition add_tee (position : Vec2) (angle : float) : Body :=
  let scale := 30 in
  mkBody position angle [tee_vertices1 scale; tee_vertices2 scale].

(** [goal_pos_angle = np.array([256, 256, np.pi / 4])] *)
Definition goal_pos_angle : float * float * float := (256, 256, np_pi / 4).

Close Scope float_scope.

(** ** Paths and effects on the outside world *)

Definition Path : Type := list string.

Definition path_eq_dec : forall p q : Path, {p = q} + {p <> q} :=
  list_eq_dec string_dec.

(** [PUSHT_URL] and [PUSHT_ZARR] *)
Definition PUSHT_URL : string :=
  "https://diffusion-policy.cs.columbia.edu/data/training/pusht.zip".

Definition PUSHT_ZARR : Path := ["pusht"; "pusht_cchi_v7_replay.zarr"]%string.

(** What a build does that a reader of the finished store cannot see from
    the store alone: the archive download, one geometry evaluation per
    labelled frame, the allocation of the store and each slice written. *)
Inductive Event : Type :=
| EvDownload (url : string) (dir : Path)
| EvLabelFrame (position : Vec2) (angle : float)
| EvMemmapLike (path : Path) (capacity : nat)
| EvWrite (lo hi : nat).

(** Loops whose body may raise. [for_each] gives up the state on an error;
    [for_range] keeps the state reached, for effects that stay on disk. *)
Fixpoint for_each {S : Type} (body : nat -> S -> result S)
    (range : list nat) (st : S) : result S :=
  match range with
  | [] => Ok st
  | i :: rest =>
      match body i st with
      | Ok st' => for_each body rest st'
      | Raise e => Raise e
      end
  end.

Fixpoint for_range {S : Type} (body : nat -> S -> S * option PyError)
    (range : list nat) (st : S) : S * option PyError :=
  match range with
  | [] => (st, None)
  | i :: rest =>
      match body i st with
      | (st', None) => for_range body rest st'
      | (st', Some e) => (st', Some e)
      end
  end.

(** [range(n)] *)
Definition range (n : nat) : list nat := seq 0 n.

Definition is_prefix (p q : Path) : bool :=
  if path_eq_dec p (firstn (length p) q) then true else false.

(** ** The raw capture *)

(** One row of the [state] array: agent position (columns 0 and 1), block
    position (columns 2 and 3) and block angle (column 4). *)
Record State : Type := mkState {
  state_0 : float;
  state_1 : float;
  state_2 : float;
  state_3 : float;
  state_4 : float
}.

(** [state[:, :2]], [state[:, 2:4]] and [state[:, 4]], row by row. *)
Definition agent_pos_of (s : State) : Vec2 := (state_0 s, state_1 s).
Definition block_pos_of (s : State) : Vec2 := (state_2 s, state_3 s).
Definition block_angle_of (s : State) : float := state_4 s.

(** ** Interfaces to the libraries around the build *)

(** Images as captured (height, width, channel) and as stored (channel,
    height, width), actions, the [einops.rearrange] that takes one image of
    the batch to the stored layout, and the value a double takes when it is
    stored into a single-precision tensor ([reward] is
    [torch.zeros(num_frames, 1)]). *)
Class Tensors : Type := {
  RawImg : Type;
  Img : Type;
  Act : Type;
  rearrange : RawImg -> Img;
  to_float32 : float -> float
}.

(** shapely geometries: [pymunk_to_shapely body shapes] places the polygons
    [shapes] by the pose of [body]; [intersection] and [area] are shapely's. *)
Class Geometry : Type := {
  Geom : Type;
  pymunk_to_shapely : Body -> list Poly -> Geom;
  intersection : Geom -> Geom -> Geom;
  area : Geom -> float
}.

Section Pusht.

Context {T : Tensors} {G : Geometry}.

(** The zarr replay buffer of diffusion_policy, as far as the build reads
    it: the data arrays, the frame counts of any further data array
    ([data_other], by key), [meta["episode_ends"]], and the array
    [get_episode_idxs()] returns. *)
Record ReplayBuffer : Type := mkReplayBuffer {
  data_img : list RawImg;
  data_state : list State;
  data_action : list Act;
  data_other : list (string * nat);
  meta_episode_ends : list nat;
  get_episode_idxs : list nat
}.

(** [{dataset_dict[key].shape[0] for key in dataset_dict.keys()}] *)
Definition frame_counts (dataset_dict : ReplayBuffer) : list nat :=
  nodup Nat.eq_dec
    (length (data_img dataset_dict)
     :: length (data_state dataset_dict)
     :: length (data_action dataset_dict)
     :: map snd (data_other dataset_dict)).

(** ** Transition records *)

Record Row : Type := mkRow {
  observation_image : Img;
  observation_state : Vec2;
  action : Act;
  episode : nat;
  frame_id : nat;
  next_observation_image : Img;
  next_observation_state : Vec2;
  next_reward : float;
  next_done : bool;
  next_success : bool
}.

(** [TensorDict({...}, batch_size=n)]: every entry must have [n] rows;
    the result is read row by row. *)
Definition TensorDict
    (c_image : list Img) (c_state : list Vec2) (c_action : list Act)
    (c_episode c_frame_id : list nat)
    (c_next_image : list Img) (c_next_state : list Vec2)
    (c_next_reward : list float) (c_next_done c_next_success : list bool)
    (batch_size : nat) : result (list Row) :=
  if forallb (Nat.eqb batch_size)
       [ length c_image; length c_state; length c_action; length c_episode;
         length c_frame_id; length c_next_image; length c_next_state;
         length c_next_reward; length c_next_done; length c_next_success ]
  then
    Ok (map
          (fun '(im, (st, (ac, (ep, (fr, (nim, (nst, (nre, (ndo, nsu))))))))) =>
             mkRow im st ac ep fr nim nst nre ndo nsu)
          (combine c_image (combine c_state (combine c_action
            (combine c_episode (combine c_frame_id (combine c_next_image
              (combine c_next_state (combine c_next_reward
                (combine c_next_done c_next_success))))))))))
  else Raise RuntimeError.

(** ** Frame labels *)

(** The body of the labelling loop up to [coverage]: a fresh T at the
    frame's block pose, the goal geometry (the T's shapes placed by the
    goal body), the block geometry, and the ratio of areas. *)
Definition frame_coverage (goal_body : Body) (position : Vec2)
    (angle : float) : result float :=
  let block_body := add_tee position angle in
  let goal_geom := pymunk_to_shapely goal_body (body_shapes block_body) in
  let block_geom := pymunk_to_shapely block_body (body_shapes block_body) in
  let intersection_area := area (intersection goal_geom block_geom) in
  let goal_area := area goal_geom in
  py_truediv intersection_area goal_area.

Definition reward_of (coverage : float) : float :=
  to_float32 (np_clip (coverage / SUCCESS_THRESHOLD) 0 1).

Definition success_of (coverage : float) : bool :=
  (SUCCESS_THRESHOLD <? coverage)%float.

Record Labels : Type := mkLabels {
  reward : list float;
  success : list bool;
  calls : list Event
}.

(** One turn of [for i in range(num_frames)]. *)
Definition label_body (goal_body : Body) (block_pos : list Vec2)
    (block_angle : list float) (i : nat) (lab : Labels) : result Labels :=
  (position <- getitem block_pos i ;;
   angle <- getitem block_angle i ;;
   coverage <- frame_coverage goal_body position angle ;;
   reward' <- setitem (reward lab) i (reward_of coverage) ;;
   success' <- setitem (success lab) i (success_of coverage) ;;
   Ok (mkLabels reward' success'
         (calls lab ++ [EvLabelFrame position angle])))%py.

(** [for i in range(num_frames): ...], started on the zero tensors. *)
Definition label_frames (goal_body : Body) (block_pos : list Vec2)
    (block_angle : list float) (num_frames : nat) (lab0 : Labels)
    : result Labels :=
  for_each (label_body goal_body block_pos block_angle) (range num_frames) lab0.

(** ** One episode *)

(** The body of the episode loop up to the [TensorDict] of the episode,
    for the frames [idx0 .. idx1 - 1]; also the geometry evaluations made. *)
Definition make_episode (goal_body : Body) (imgs : list Img)
    (states : list State) (actions : list Act) (episode_ids : list nat)
    (episode_id idx0 idx1 : nat) : result (list Row * list Event) :=
  (_ <- py_assert (forallb (Nat.eqb episode_id) (slice episode_ids idx0 idx1)) ;;
   let image := slice imgs idx0 idx1 in
   let state := slice states idx0 idx1 in
   let agent_pos := map agent_pos_of state in
   let block_pos := map block_pos_of state in
   let block_angle := map block_angle_of state in
   (* torch.zeros refuses a negative size *)
   if idx1 <? idx0 then Raise RuntimeError else
   let num_frames := idx1 - idx0 in
   let lab0 := mkLabels (repeat 0%float num_frames) (repeat false num_frames) [] in
   let done := repeat false num_frames in
   lab <- label_frames goal_body block_pos block_angle num_frames lab0 ;;
   done <- set_last done true ;;
   episode <- TensorDict
                (drop_last image)
                (drop_last agent_pos)
                (drop_last (slice actions idx0 idx1))
                (drop_last (slice episode_ids idx0 idx1))
                (seq 0 (num_frames - 1))
                (drop_first image)
                (drop_first agent_pos)
                (drop_first (reward lab))
                (drop_first done)
                (drop_first (success lab))
                (num_frames - 1) ;;
   Ok (episode, calls lab))%py.

(** ** The store *)

(** A cell of the memory-mapped store: [None] until a row is written
    ([memmap_like] allocates without content). *)
Definition Cells : Type := list (option Row).

(** [td[lo:hi] = value]: the slice is clamped to the store; a value of
    another batch size is expanded to the slice when it has one row, and
    refused otherwise. *)
Definition setslice (td : Cells) (lo hi : nat) (value : list Row)
    : result Cells :=
  let n := length (slice td lo hi) in
  match
    (if length value =? n then Ok value
     else match value with
          | [v] => Ok (repeat v n)
          | _ => Raise RuntimeError
          end)
  with
  | Ok rows => Ok (firstn lo td ++ map Some rows ++ skipn (lo + n) td)
  | Raise e => Raise e
  end.

Record LoopState : Type := mkLoop {
  idx0 : nat;
  idxtd : nat;
  td_data : option Cells;
  trace : list Event
}.

(** One turn of [for episode_id in range(num_episodes)]. On an error the
    state reached is kept: what was allocated and written stays on disk. *)
Definition episode_body (store_path : Path) (episode_ends : list nat)
    (total_frames : nat) (goal_body : Body) (imgs : list Img)
    (states : list State) (actions : list Act) (episode_ids : list nat)
    (episode_id : nat) (st : LoopState) : LoopState * option PyError :=
  match
    (idx1 <- getitem episode_ends episode_id ;;
     ep <- make_episode goal_body imgs states actions episode_ids
             episode_id (idx0 st) idx1 ;;
     Ok (idx1, ep))%py
  with
  | Raise e => (st, Some e)
  | Ok (idx1, (episode, evs)) =>
      let st1 := mkLoop (idx0 st) (idxtd st) (td_data st) (trace st ++ evs) in
      match
        (if episode_id =? 0 then
           (_ <- getitem episode 0 ;;
            Ok (mkLoop (idx0 st1) (idxtd st1)
                  (Some (repeat None total_frames))
                  (trace st1 ++ [EvMemmapLike store_path total_frames])))%py
         else Ok st1)
      with
      | Raise e => (st1, Some e)
      | Ok st2 =>
          let hi := idxtd st2 + length episode in
          match
            (td <- match td_data st2 with
                   | Some td => Ok td
                   | None => Raise UnboundLocalError
                   end ;;
             setslice td (idxtd st2) hi episode)%py
          with
          | Raise e => (st2, Some e)
          | Ok td' =>
              (mkLoop idx1 hi (Some td')
                 (trace st2 ++ [EvWrite (idxtd st2) hi]), None)
          end
      end
  end.

(** [_download_and_preproc] from the loaded [dataset_dict] to the end of
    the episode loop. *)
Definition preproc_loop (store_path : Path) (dataset_dict : ReplayBuffer)
    : LoopState * option PyError :=
  let st0 := mkLoop 0 0 None [] in
  let episode_ids := get_episode_idxs dataset_dict in
  let num_episodes := length (meta_episode_ends dataset_dict) in
  let total_frames := length (data_action dataset_dict) in
  match py_assert (negb (length (frame_counts dataset_dict) =? 0)) with
  | Raise e => (st0, Some e)
  | Ok _ =>
      let goal_body := get_goal_pose_body goal_pos_angle in
      let imgs := map rearrange (data_img dataset_dict) in
      let states := data_state dataset_dict in
      let actions := data_action dataset_dict in
      for_range
        (episode_body store_path (meta_episode_ends dataset_dict)
           total_frames goal_body imgs states actions episode_ids)
        (range num_episodes) st0
  end.

(** ** The file system *)

(** A memory-mapped tensordict and the [TensorStorage] around it. *)
Record MemmapTensorDict : Type := mkTD {
  td_cells : Cells;
  td_locked : bool
}.

Record TensorStorage : Type := mkStorage {
  _storage : MemmapTensorDict
}.

(** [td.lock_()] *)
Definition lock_ (td : Cells) : MemmapTensorDict := mkTD td true.

(** [len(storage)]: a [TensorStorage] built around a tensordict has the
    tensordict's first dimension as its length. *)
Definition storage_len (s : TensorStorage) : nat :=
  length (td_cells (_storage s)).

(** The part of the world the constructor reads and changes: the
    directories that exist, the zarr captures and the memory-mapped stores
    on disk, each by its path, and the log of what builds have done. *)
Record World : Type := mkWorld {
  dirs : list Path;
  zarr_files : list (Path * ReplayBuffer);
  memmaps : list (Path * Cells);
  log : list Event
}.

Definition lookup {A : Type} (p : Path) (l : list (Path * A)) : option A :=
  match find (fun e => if path_eq_dec p (fst e) then true else false) l with
  | Some e => Some (snd e)
  | None => None
  end.

(** [p.is_dir()]: [p] is a recorded directory or an ancestor of one. *)
Definition is_dir (p : Path) (w : World) : bool :=
  existsb (is_prefix p) (dirs w).

(** [os.makedirs(p, exist_ok=True)] and [p.mkdir(parents=True, exist_ok=True)] *)
Definition makedirs (p : Path) (w : World) : World :=
  if is_dir p w then w
  else mkWorld (p :: dirs w) (zarr_files w) (memmaps w) (log w).

Definition log_event (ev : Event) (w : World) : World :=
  mkWorld (dirs w) (zarr_files w) (memmaps w) (log w ++ [ev]).

(** [value.shape[0]] for every [key, value] of the data arrays. *)
Definition data_frame_counts (dataset_dict : ReplayBuffer) : list nat :=
  length (data_img dataset_dict)
  :: length (data_state dataset_dict)
  :: length (data_action dataset_dict)
  :: map snd (data_other dataset_dict).

(** [ReplayBuffer.__init__(root)] of diffusion_policy, which every loader of
    the class ends in:
    [for key, value in root["data"].items():
         assert value.shape[0] == root["meta"]["episode_ends"][-1]].
    The index [-1] is out of range when there is no episode end. *)
Definition ReplayBuffer__init__ (root : ReplayBuffer) : result ReplayBuffer :=
  match meta_episode_ends root with
  | [] => Raise IndexError
  | episode_ends =>
      if forallb (fun shape0 => shape0 =? last episode_ends 0)
           (data_frame_counts root)
      then Ok root
      else Raise AssertionError
  end.

(** [ReplayBuffer.copy_from_path(zarr_path)]: the arrays at [zarr_path] are
    read and handed to the constructor of the class. *)
Definition copy_from_path (zarr_path : Path) (w : World) : result ReplayBuffer :=
  match lookup zarr_path (zarr_files w) with
  | Some root => ReplayBuffer__init__ root
  | None => Raise FileNotFoundError
  end.

(** [TensorDict.load_memmap(path)]: the store persisted at [path], which
    comes back locked. *)
Definition load_memmap (path : Path) (w : World) : result MemmapTensorDict :=
  match lookup path (memmaps w) with
  | Some td => Ok (mkTD td true)
  | None => Raise FileNotFoundError
  end.

(** What a run of the episode loop leaves behind: its events, and, once
    [memmap_like] has run, the directory of the store with the cells as
    last written. *)
Definition persist (store_path : Path) (st : LoopState) (w : World) : World :=
  match td_data st with
  | Some td =>
      mkWorld (dirs (makedirs store_path w)) (zarr_files w)
        ((store_path, td) :: memmaps w) (log w ++ trace st)
  | None => mkWorld (dirs w) (zarr_files w) (memmaps w) (log w ++ trace st)
  end.

(** [_get_root_dir("pusht")] of torchrl, and [download_and_extract_zip] of
    [lerobot.common.datasets.utils]: it is given the archive's address and
    the directory to extract into, changes the world at will, and may fail. *)
Class Outside : Type := {
  pusht_root_dir : Path;
  download_and_extract_zip : string -> Path -> World -> result World
}.

Context {O : Outside}.

(** ** [PushtExperienceReplay] *)

(** The constructor's arguments that decide what it does; the others
    ([batch_size], [shuffle], [pad], [replacement], [sampler], [writer],
    [collate_fn], [pin_memory], [prefetch], [transform], [strict_length])
    are stored or handed to the parent class. *)
Record InitArgs : Type := mkArgs {
  arg_dataset_id : string;
  arg_streaming : bool;
  arg_num_slices : option Z;
  arg_slice_len : option Z;
  arg_split_trajs : bool;
  arg_root : option Path
}.

Record PushtExperienceReplay : Type := mkReplay {
  dataset_id : string;
  root : Path;
  storage : TensorStorage
}.

Definition is_not_None {A : Type} (o : option A) : bool :=
  match o with
  | Some _ => true
  | None => false
  end.

(** [data_path_root] when [streaming] is false, as it is wherever the
    constructor reads it. *)
Definition data_path_root (root : Path) (dataset_id : string) : Path :=
  root ++ [dataset_id].

Definition _is_downloaded (root : Path) (dataset_id : string) (w : World)
    : bool :=
  is_dir (data_path_root root dataset_id) w.

Definition _download_and_preproc (root : Path) (dataset_id : string)
    (w : World) : result TensorStorage * World :=
  let raw_dir := root ++ ["raw"%string] in
  let zarr_path := raw_dir ++ PUSHT_ZARR in
  let download :=
    if is_dir zarr_path w then (Ok w, w)
    else
      let w0 := log_event (EvDownload PUSHT_URL raw_dir) (makedirs raw_dir w) in
      (download_and_extract_zip PUSHT_URL raw_dir w0, w0) in
  match download with
  | (Raise e, w0) => (Raise e, w0)
  | (Ok w1, _) =>
      match copy_from_path zarr_path w1 with
      | Raise e => (Raise e, w1)
      | Ok dataset_dict =>
          let '(st, err) := preproc_loop (data_path_root root dataset_id) dataset_dict in
          let w2 := persist (data_path_root root dataset_id) st w1 in
          match err, td_data st with
          | Some e, _ => (Raise e, w2)
          | None, None => (Raise UnboundLocalError, w2)
          | None, Some td => (Ok (mkStorage (lock_ td)), w2)
          end
      end
  end.

Definition __init__ (args : InitArgs) (w : World)
    : result PushtExperienceReplay * World :=
  if arg_streaming args then (Raise NotImplementedError, w)
  else if is_not_None (arg_num_slices args) && is_not_None (arg_slice_len args)
  then (Raise ValueError, w)
  else if arg_split_trajs args then (Raise NotImplementedError, w)
  else
    let '(root, w1) :=
      match arg_root args with
      | None => (pusht_root_dir, makedirs pusht_root_dir w)
      | Some r => (r, w)
      end in
    let '(storage, w2) :=
      if negb (_is_downloaded root (arg_dataset_id args) w1)
      then _download_and_preproc root (arg_dataset_id args) w1
      else
        (match load_memmap (data_path_root root (arg_dataset_id args)) w1 with
         | Ok td => Ok (mkStorage td)
         | Raise e => Raise e
         end, w1) in
    match storage with
    | Ok s => (Ok (mkReplay (arg_dataset_id args) root s), w2)
    | Raise e => (Raise e, w2)
    end.

(** The root directory the constructor settles on: the argument, or
    [_get_root_dir("pusht")]. *)
Definition root_of (args : InitArgs) : Path :=
  match arg_root args with
  | Some r => r
  | None => pusht_root_dir
  end.

(** [num_samples]: [len(self)], the length of the storage. *)
Definition num_samples (self : PushtExperienceReplay) : nat :=
  storage_len (storage self).

End Pusht.

(** ** Notions the properties are stated with *)

Section Notions.

Context {T : Tensors} {G : Geometry}.

(** The two polygons every T carries, whatever its pose. *)
Definition tee_shapes : list Poly := [tee_vertices1 30; tee_vertices2 30].

(** The goal every frame of every episode is compared with. *)
Definition the_goal_body : Body := get_goal_pose_body goal_pos_angle.

(** Coverage as the specification words it: the T placed at the goal pose,
    the T placed at the object pose, and the share of the goal's area that
    the object overlaps. *)
Definition goal_shape (goal_body : Body) : Geom :=
  pymunk_to_shapely goal_body tee_shapes.

Definition object_shape (position : Vec2) (angle : float) : Geom :=
  pymunk_to_shapely (mkBody position angle tee_shapes) tee_shapes.

Definition coverage (goal_body : Body) (position : Vec2) (angle : float)
    : float :=
  (area (intersection (goal_shape goal_body) (object_shape position angle))
   / area (goal_shape goal_body))%float.

Definition state_coverage (goal_body : Body) (s : State) : float :=
  coverage goal_body (block_pos_of s) (block_angle_of s).

Definition label_event (s : State) : Event :=
  EvLabelFrame (block_pos_of s) (block_angle_of s).

(** The slices written, in the order of the writes. *)
Definition writes_of (tr : list Event) : list (nat * nat) :=
  flat_map (fun ev => match ev with
                      | EvWrite lo hi => [(lo, hi)]
                      | _ => []
                      end) tr.

(** Half-open ranges laid end to end from [start]: each begins where the
    one before it stops. *)
Fixpoint contiguous_from (start : nat) (ranges : list (nat * nat)) : Prop :=
  match ranges with
  | [] => True
  | (lo, hi) :: rest => lo = start /\ lo <= hi /\ contiguous_from hi rest
  end.

(** A capture the build gets through: the first episode has two frames or
    more and every later one at least one, no episode ends past [bound], and
    the episode index recorded for each frame is that of its episode. *)
Definition min_frames (episode_id : nat) : nat :=
  if episode_id =? 0 then 2 else 1.

Fixpoint episodes_ok (episode_ids : list nat) (bound episode_id idx0 : nat)
    (ends : list nat) : bool :=
  match ends with
  | [] => true
  | idx1 :: rest =>
      (idx0 + min_frames episode_id <=? idx1) && (idx1 <=? bound)
      && forallb (Nat.eqb episode_id) (slice episode_ids idx0 idx1)
      && episodes_ok episode_ids bound (S episode_id) idx1 rest
  end.

(** All arrays have as many frames as [action], there is an episode, and
    the last episode ends with the last frame. *)
Definition well_formed (dataset_dict : ReplayBuffer) : bool :=
  let n := length (data_action dataset_dict) in
  negb (length (meta_episode_ends dataset_dict) =? 0)
  && (length (data_img dataset_dict) =? n)
  && (length (data_state dataset_dict) =? n)
  && (length (get_episode_idxs dataset_dict) =? n)
  && (last (meta_episode_ends dataset_dict) 0 =? n)
  && episodes_ok (get_episode_idxs dataset_dict) n 0 0
       (meta_episode_ends dataset_dict).

(** The rows of one episode in closed form: the columns of [make_episode]
    with the labels filled in. *)
Definition transitions (goal_body : Body) (imgs : list Img)
    (states : list State) (actions : list Act) (episode_ids : list nat)
    (idx0 idx1 : nat) : list Row :=
  let image := slice imgs idx0 idx1 in
  let state := slice states idx0 idx1 in
  let num_frames := idx1 - idx0 in
  map (fun '(im, (st, (ac, (ep, (fr, (nim, (nst, (nre, (ndo, nsu))))))))) =>
         mkRow im st ac ep fr nim nst nre ndo nsu)
    (combine (drop_last image)
      (combine (drop_last (map agent_pos_of state))
        (combine (drop_last (slice actions idx0 idx1))
          (combine (drop_last (slice episode_ids idx0 idx1))
            (combine (seq 0 (num_frames - 1))
              (combine (drop_first image)
                (combine (drop_first (map agent_pos_of state))
                  (combine
                     (drop_first
                        (map (fun s => reward_of (state_coverage goal_body s)) state))
                     (combine
                        (drop_first (repeat false (num_frames - 1) ++ [true]))
                        (drop_first
                           (map (fun s => success_of (state_coverage goal_body s))
                              state))))))))))).

(** A store of [total_frames] cells whose first cells hold [written]. *)
Definition cells_of (total_frames : nat) (written : list Row) : Cells :=
  map Some written ++ repeat None (total_frames - length written).

(** The events of one turn of the episode loop, and of the turns for the
    episodes ending at [ends]; the rows of these episodes, episode by
    episode; the ranges that blocks laid end to end from [start] occupy. *)
Definition step_trace (store_path : Path) (total_frames : nat)
    (states : list State) (episode_id idxtd idx0 idx1 : nat) : list Event :=
  map label_event (slice states idx0 idx1)
  ++ (if episode_id =? 0 then [EvMemmapLike store_path total_frames] else [])
  ++ [EvWrite idxtd (idxtd + (idx1 - idx0 - 1))].

Fixpoint expected_trace (store_path : Path) (total_frames : nat)
    (states : list State) (episode_id idxtd idx0 : nat) (ends : list nat)
    : list Event :=
  match ends with
  | [] => []
  | idx1 :: rest =>
      step_trace store_path total_frames states episode_id idxtd idx0 idx1
      ++ expected_trace store_path total_frames states (S episode_id)
           (idxtd + (idx1 - idx0 - 1)) idx1 rest
  end.

Fixpoint expected_blocks (goal_body : Body) (imgs : list Img)
    (states : list State) (actions : list Act) (episode_ids : list nat)
    (idx0 : nat) (ends : list nat) : list (list Row) :=
  match ends with
  | [] => []
  | idx1 :: rest =>
      transitions goal_body imgs states actions episode_ids idx0 idx1
      :: expected_blocks goal_body imgs states actions episode_ids idx1 rest
  end.

Fixpoint ranges_from {A : Type} (start : nat) (blocks : list (list A))
    : list (nat * nat) :=
  match blocks with
  | [] => []
  | b :: rest =>
      (start, start + length b) :: ranges_from (start + length b) rest
  end.

(** The poses whose geometry was evaluated, and the stores allocated, in
    the order of the events. *)
Definition labels_of (tr : list Event) : list (Vec2 * float) :=
  flat_map (fun ev => match ev with
                      | EvLabelFrame position angle => [(position, angle)]
                      | _ => []
                      end) tr.

Definition allocations_of (tr : list Event) : list (Path * nat) :=
  flat_map (fun ev => match ev with
                      | EvMemmapLike path capacity => [(path, capacity)]
                      | _ => []
                      end) tr.

Definition block_pose_of (s : State) : Vec2 * float :=
  (block_pos_of s, block_angle_of s).

(** The downloads made, in the order of the events. *)
Definition downloads_of (tr : list Event) : list (string * Path) :=
  flat_map (fun ev => match ev with
                      | EvDownload url dir => [(url, dir)]
                      | _ => []
                      end) tr.

End Notions.

(** ** Sample instances, for running the build on concrete captures *)

(** Images and actions are numbered, and tensors keep doubles as they are. *)
Definition sample_tensors : Tensors :=
  {| RawImg := nat; Img := nat; Act := nat;
     rearrange := fun im => im;
     to_float32 := fun x => x |}.

Definition same_pose (a b : Body) : bool :=
  ((fst (body_position a) =? fst (body_position b))
   && (snd (body_position a) =? snd (body_position b))
   && (body_angle a =? body_angle b))%float.

(** A geometry that only tells coinciding shapes (full overlap) from
    different ones (no overlap): a shape is the pose it was placed by, the
    T has area 6300, and the empty shape has area 0. *)
Definition sample_geometry : Geometry :=
  {| Geom := option Body;
     pymunk_to_shapely := fun body _ => Some body;
     intersection := fun g1 g2 =>
       match g1, g2 with
       | Some a, Some b => if same_pose a b then Some a else None
       | _, _ => None
       end;
     area := fun g => match g with Some _ => 6300%float | None => 0%float end |}.

(** A frame with the block on the goal, and one with the block away. *)
Definition on_goal (agent : float) : State :=
  mkState agent agent 256 256 (np_pi / 4)%float.

Definition off_goal (agent : float) : State :=
  mkState agent agent 100 256 0%float.

(** Two episodes of five frames each. *)
Definition sample_capture : @ReplayBuffer sample_tensors :=
  @mkReplayBuffer sample_tensors
    [100; 101; 102; 103; 104; 105; 106; 107; 108; 109]
    [off_goal 0; off_goal 1; on_goal 2; on_goal 3; on_goal 4;
     off_goal 5; off_goal 6; off_goal 7; off_goal 8; on_goal 9]%float
    [200; 201; 202; 203; 204; 205; 206; 207; 208; 209]
    []
    [5; 10]
    [0; 0; 0; 0; 0; 1; 1; 1; 1; 1].


Definition sample_root : Path := ["data"]%string.

Definition sample_zarr_path : Path :=
  (sample_root ++ ["raw"%string]) ++ PUSHT_ZARR.

(** A machine without network: the archive cannot be fetched. *)
Definition sample_outside : @Outside sample_tensors :=
  {| pusht_root_dir := [".cache"; "torchrl"; "pusht"]%string;
     download_and_extract_zip := fun _ _ _ => Raise FileNotFoundError |}.

(** The raw capture is extracted under [sample_root]; nothing is built. *)
Definition world_raw : @World sample_tensors :=
  @mkWorld sample_tensors [sample_zarr_path]
    [(sample_zarr_path, sample_capture)] [] [].


Definition sample_args : InitArgs :=
  mkArgs "pusht"%string false None None false (Some sample_root).

(** The world after the store has been built from [world_raw]. *)
Definition world_built : @World sample_tensors :=
  snd (@__init__ sample_tensors sample_geometry sample_outside
         sample_args world_raw).

(** A capture whose first episode has a single frame. *)
Definition one_frame_first_capture : @ReplayBuffer sample_tensors :=
  @mkReplayBuffer sample_tensors
    (data_img sample_capture) (data_state sample_capture)
    (data_action sample_capture) []
    [1; 10]
    [0; 1; 1; 1; 1; 1; 1; 1; 1; 1].

Definition world_one_frame_first : @World sample_tensors :=
  @mkWorld sample_tensors [sample_zarr_path]
    [(sample_zarr_path, one_frame_first_capture)] [] [].

(** The sample capture with frame 7 recorded under episode 4. *)
Definition wrong_ids_capture : @ReplayBuffer sample_tensors :=
  @mkReplayBuffer sample_tensors
    (data_img sample_capture) (data_state sample_capture)
    (data_action sample_capture) []
    [5; 10]
    [0; 0; 0; 0; 0; 1; 1; 4; 1; 1].

Definition world_wrong_ids : @World sample_tensors :=
  @mkWorld sample_tensors [sample_zarr_path]
    [(sample_zarr_path, wrong_ids_capture)] [] [].


Unset Implicit Arguments.

(** * Facts *)

(** ** Sequences *)

Lemma nth_error_slice {A : Type} (x : list A) (a b j : nat) :
  nth_error (slice x a b) j = if j <? b - a then nth_error x (a + j) else None.
Proof.
  unfold slice. rewrite nth_error_firstn.
  destruct (j <? b - a); [apply nth_error_skipn | reflexivity].
Qed.

Lemma length_slice {A : Type} (x : list A) (a b : nat) :
  b <= length x -> length (slice x a b) = b - a.
Proof.
  intros Hb. unfold slice. rewrite length_firstn, length_skipn. lia.
Qed.

Lemma length_drop_last {A : Type} (x : list A) :
  length (drop_last x) = length x - 1.
Proof.
  unfold drop_last. rewrite removelast_firstn_len, length_firstn. lia.
Qed.

Lemma nth_error_drop_last {A : Type} (x : list A) (j : nat) :
  j + 1 < length x -> nth_error (drop_last x) j = nth_error x j.
Proof.
  intros Hj. unfold drop_last. rewrite removelast_firstn_len, nth_error_firstn.
  destruct (Nat.ltb_spec j (pred (length x))); [reflexivity | lia].
Qed.

Lemma length_drop_first {A : Type} (x : list A) :
  length (drop_first x) = length x - 1.
Proof. destruct x; simpl; lia. Qed.

Lemma nth_error_drop_first {A : Type} (x : list A) (j : nat) :
  nth_error (drop_first x) j = nth_error x (S j).
Proof. destruct x; simpl; [destruct j|]; reflexivity. Qed.

Lemma nth_error_combine {A B : Type} (x : list A) (y : list B) (j : nat) :
  nth_error (combine x y) j =
  match nth_error x j, nth_error y j with
  | Some a, Some b => Some (a, b)
  | _, _ => None
  end.
Proof.
  revert y j. induction x as [|a x IH]; intros [|b y] [|j]; simpl; try reflexivity.
  - destruct (nth_error x j); reflexivity.
  - apply IH.
Qed.

Lemma getitem_middle {A : Type} (pre : list A) (v : A) (post : list A) :
  getitem (pre ++ v :: post) (length pre) = Ok v.
Proof.
  unfold getitem. rewrite nth_error_app2 by lia. rewrite Nat.sub_diag. reflexivity.
Qed.

Lemma setitem_middle {A : Type} (pre : list A) (old v : A) (post : list A) :
  setitem (pre ++ old :: post) (length pre) v = Ok (pre ++ v :: post).
Proof.
  induction pre as [|h pre IH]; simpl; [reflexivity | rewrite IH; reflexivity].
Qed.

Lemma removelast_repeat {A : Type} (a : A) (n : nat) :
  removelast (repeat a (S n)) = repeat a n.
Proof.
  induction n as [|n IH]; [reflexivity|].
  change (repeat a (S (S n))) with (a :: repeat a (S n)).
  cbn [removelast]. rewrite IH. reflexivity.
Qed.

Lemma set_last_repeat (n : nat) :
  0 < n -> set_last (repeat false n) true = Ok (repeat false (n - 1) ++ [true]).
Proof.
  intros Hn. destruct n as [|n]; [lia|].
  unfold set_last. rewrite removelast_repeat.
  cbn [repeat]. rewrite Nat.sub_1_r. reflexivity.
Qed.

Lemma forallb_nth_error {A : Type} (f : A -> bool) (x : list A) (j : nat) (a : A) :
  forallb f x = true -> nth_error x j = Some a -> f a = true.
Proof.
  intros Hall Hj. rewrite forallb_forall in Hall.
  apply Hall. eapply nth_error_In. exact Hj.
Qed.

Lemma nth_error_done (n j : nat) :
  j < n ->
  nth_error (repeat false (n - 1) ++ [true]) j = Some (S j =? n).
Proof.
  intros Hj. destruct (Nat.eqb_spec (S j) n) as [Heq|Hne].
  - rewrite nth_error_app2 by (rewrite repeat_length; lia).
    rewrite repeat_length. replace (j - (n - 1)) with 0 by lia. reflexivity.
  - rewrite nth_error_app1 by (rewrite repeat_length; lia).
    apply nth_error_repeat. lia.
Qed.

Lemma skipn_repeat {A : Type} (a : A) (n m : nat) :
  skipn n (repeat a m) = repeat a (m - n).
Proof.
  revert m. induction n as [|n IH]; intros [|m]; simpl; try reflexivity. apply IH.
Qed.

(** ** The labelling loop, one episode, the episode loop *)

Section Facts.

Context {T : Tensors} {G : Geometry}.

Lemma frame_coverage_eq (goal_body : Body) (position : Vec2) (angle : float) :
  frame_coverage goal_body position angle =
  if (area (goal_shape goal_body) =? 0)%float then Raise ZeroDivisionError
  else Ok (coverage goal_body position angle).
Proof. reflexivity. Qed.

Lemma label_loop_from (goal_body : Body) :
  (area (goal_shape goal_body) =? 0)%float = false ->
  forall (rest pre : list State) (r_pre : list float) (s_pre : list bool)
         (evs : list Event),
    length r_pre = length pre ->
    length s_pre = length pre ->
    for_each
      (label_body goal_body (map block_pos_of (pre ++ rest))
         (map block_angle_of (pre ++ rest)))
      (seq (length pre) (length rest))
      (mkLabels (r_pre ++ repeat 0%float (length rest))
         (s_pre ++ repeat false (length rest)) evs)
    = Ok (mkLabels
            (r_pre ++ map (fun s => reward_of (state_coverage goal_body s)) rest)
            (s_pre ++ map (fun s => success_of (state_coverage goal_body s)) rest)
            (evs ++ map label_event rest)).
Proof.
  intros Hgoal. induction rest as [|s rest IH]; intros pre r_pre s_pre evs Hr Hs.
  - simpl. rewrite !app_nil_r. reflexivity.
  - cbn [length seq for_each repeat].
    unfold label_body at 1. cbn [reward success calls].
    rewrite !map_app. cbn [map].
    replace (length pre) with (length (map block_pos_of pre)) at 1 by apply length_map.
    rewrite getitem_middle. cbn [bind].
    replace (length pre) with (length (map block_angle_of pre)) at 1 by apply length_map.
    rewrite getitem_middle. cbn [bind].
    rewrite frame_coverage_eq, Hgoal. cbn [bind].
    rewrite <- Hr at 1. rewrite setitem_middle. cbn [bind].
    rewrite <- Hs at 1. rewrite setitem_middle. cbn [bind].
    specialize (IH (pre ++ [s]) (r_pre ++ [reward_of (state_coverage goal_body s)])
                  (s_pre ++ [success_of (state_coverage goal_body s)])
                  (evs ++ [label_event s])).
    rewrite !length_app in IH. cbn [length] in IH.
    rewrite !Nat.add_1_r in IH.
    rewrite <- !app_assoc in IH. cbn [app] in IH.
    rewrite !map_app in IH. cbn [map] in IH.
    apply IH; lia.
Qed.

Lemma label_loop (goal_body : Body) (state : list State) (n : nat) :
  (area (goal_shape goal_body) =? 0)%float = false ->
  length state = n ->
  label_frames goal_body (map block_pos_of state) (map block_angle_of state) n
    (mkLabels (repeat 0%float n) (repeat false n) [])
  = Ok (mkLabels
          (map (fun s => reward_of (state_coverage goal_body s)) state)
          (map (fun s => success_of (state_coverage goal_body s)) state)
          (map label_event state)).
Proof.
  intros Hgoal <-.
  exact (label_loop_from goal_body Hgoal state [] [] [] [] eq_refl eq_refl).
Qed.

Lemma make_episode_ok (goal_body : Body) (imgs : list Img)
    (states : list State) (actions : list Act) (episode_ids : list nat)
    (episode_id idx0 idx1 : nat) :
  (area (goal_shape goal_body) =? 0)%float = false ->
  idx0 < idx1 ->
  idx1 <= length imgs -> idx1 <= length states ->
  idx1 <= length actions -> idx1 <= length episode_ids ->
  forallb (Nat.eqb episode_id) (slice episode_ids idx0 idx1) = true ->
  make_episode goal_body imgs states actions episode_ids episode_id idx0 idx1
  = Ok (transitions goal_body imgs states actions episode_ids idx0 idx1,
        map label_event (slice states idx0 idx1)).
Proof.
  intros Hgoal Hlt Hi Hs Ha He Hids.
  unfold make_episode. rewrite Hids. cbn [py_assert bind].
  destruct (Nat.ltb_spec idx1 idx0) as [Hneg|_]; [lia|].
  rewrite (label_loop goal_body (slice states idx0 idx1) (idx1 - idx0) Hgoal)
    by (apply length_slice; exact Hs).
  cbn [bind reward success calls].
  rewrite set_last_repeat by lia. cbn [bind].
  unfold TensorDict.
  rewrite !length_drop_last, !length_drop_first, !length_map, length_app,
    !length_slice, length_seq, repeat_length by assumption.
  cbn [length forallb].
  replace (idx1 - idx0 - 1 + 1 - 1) with (idx1 - idx0 - 1) by lia.
  rewrite Nat.eqb_refl. cbn [andb bind].
  reflexivity.
Qed.
Lemma length_transitions (goal_body : Body) (imgs : list Img)
    (states : list State) (actions : list Act) (episode_ids : list nat)
    (idx0 idx1 : nat) :
  idx1 <= length imgs -> idx1 <= length states ->
  idx1 <= length actions -> idx1 <= length episode_ids ->
  length (transitions goal_body imgs states actions episode_ids idx0 idx1)
  = idx1 - idx0 - 1.
Proof.
  intros Hi Hs Ha He. unfold transitions.
  rewrite length_map, !length_combine.
  rewrite !length_drop_last, !length_drop_first, !length_map, length_app,
    !length_slice, length_seq, repeat_length by assumption.
  cbn [length]. lia.
Qed.

Lemma nth_error_transitions (goal_body : Body) (imgs : list Img)
    (states : list State) (actions : list Act) (episode_ids : list nat)
    (episode_id idx0 idx1 j : nat) (im im' : Img) (st st' : State) (ac : Act) :
  S j < idx1 - idx0 ->
  idx1 <= length imgs -> idx1 <= length states ->
  idx1 <= length actions -> idx1 <= length episode_ids ->
  forallb (Nat.eqb episode_id) (slice episode_ids idx0 idx1) = true ->
  nth_error imgs (idx0 + j) = Some im ->
  nth_error states (idx0 + j) = Some st ->
  nth_error actions (idx0 + j) = Some ac ->
  nth_error imgs (idx0 + S j) = Some im' ->
  nth_error states (idx0 + S j) = Some st' ->
  nth_error (transitions goal_body imgs states actions episode_ids idx0 idx1) j
  = Some (mkRow im (agent_pos_of st) ac episode_id j im' (agent_pos_of st')
            (reward_of (state_coverage goal_body st'))
            (S (S j) =? idx1 - idx0)
            (success_of (state_coverage goal_body st'))).
Proof.
  intros Hj Hi Hs Ha He Hids Him Hst Hac Him' Hst'.
  assert (Hjlt : (j <? idx1 - idx0) = true) by (apply Nat.ltb_lt; lia).
  assert (HSjlt : (S j <? idx1 - idx0) = true) by (apply Nat.ltb_lt; lia).
  assert (Hep : nth_error (slice episode_ids idx0 idx1) j = Some episode_id).
  { destruct (nth_error (slice episode_ids idx0 idx1) j) as [e|] eqn:Hnth.
    - apply (forallb_nth_error _ _ _ _ Hids) in Hnth.
      apply Nat.eqb_eq in Hnth. congruence.
    - apply nth_error_None in Hnth. rewrite length_slice in Hnth by assumption. lia. }
  unfold transitions. rewrite nth_error_map, !nth_error_combine.
  rewrite !nth_error_drop_last
    by (rewrite ?length_map, length_slice by assumption; lia).
  rewrite !nth_error_drop_first, !nth_error_map, Hep, !nth_error_slice.
  rewrite Hjlt, HSjlt, Him, Hst, Hac, Him', Hst'.
  rewrite nth_error_seq.
  destruct (Nat.ltb_spec j (idx1 - idx0 - 1)) as [_|Hge]; [|lia].
  rewrite nth_error_done by lia.
  reflexivity.
Qed.

Lemma transitions_pointwise (goal_body : Body) (imgs : list Img)
    (states : list State) (actions : list Act) (episode_ids : list nat)
    (episode_id i0 i1 j : nat) :
  i1 <= length imgs -> i1 <= length states ->
  i1 <= length actions -> i1 <= length episode_ids ->
  forallb (Nat.eqb episode_id) (slice episode_ids i0 i1) = true ->
  j < (i1 - i0) - 1 ->
  exists im st ac im' st',
    nth_error imgs (i0 + j) = Some im
    /\ nth_error states (i0 + j) = Some st
    /\ nth_error actions (i0 + j) = Some ac
    /\ nth_error imgs (i0 + (j + 1)) = Some im'
    /\ nth_error states (i0 + (j + 1)) = Some st'
    /\ nth_error
         (transitions goal_body imgs states actions episode_ids i0 i1) j
       = Some (mkRow im (agent_pos_of st) ac episode_id j
                 im' (agent_pos_of st')
                 (reward_of (state_coverage goal_body st'))
                 (j + 1 =? (i1 - i0) - 1)
                 (success_of (state_coverage goal_body st'))).
Proof.
  intros Hi Hs Ha He Hids Hj.
  destruct (nth_error imgs (i0 + j)) as [im|] eqn:Him;
    [| apply nth_error_None in Him; lia].
  destruct (nth_error states (i0 + j)) as [st|] eqn:Hst;
    [| apply nth_error_None in Hst; lia].
  destruct (nth_error actions (i0 + j)) as [ac|] eqn:Hac;
    [| apply nth_error_None in Hac; lia].
  destruct (nth_error imgs (i0 + (j + 1))) as [im'|] eqn:Him';
    [| apply nth_error_None in Him'; lia].
  destruct (nth_error states (i0 + (j + 1))) as [st'|] eqn:Hst';
    [| apply nth_error_None in Hst'; lia].
  exists im, st, ac, im', st'. repeat split.
  rewrite Nat.add_1_r in Him', Hst'.
  rewrite (nth_error_transitions goal_body imgs states actions episode_ids
             episode_id i0 i1 j im im' st st' ac) by (assumption || lia).
  replace (S (S j) =? i1 - i0) with (j + 1 =? i1 - i0 - 1); [reflexivity|].
  destruct (Nat.eqb_spec (S (S j)) (i1 - i0)), (Nat.eqb_spec (j + 1) (i1 - i0 - 1));
    (reflexivity || (exfalso; lia)).
Qed.
Lemma length_cells_of (total_frames : nat) (written : list Row) :
  length written <= total_frames ->
  length (cells_of total_frames written) = total_frames.
Proof.
  intros H. unfold cells_of. rewrite length_app, length_map, repeat_length. lia.
Qed.

Lemma setslice_append (total_frames : nat) (written rows : list Row) :
  length written + length rows <= total_frames ->
  setslice (cells_of total_frames written) (length written)
    (length written + length rows) rows
  = Ok (cells_of total_frames (written ++ rows)).
Proof.
  intros Hfit. unfold setslice.
  rewrite length_slice by (rewrite length_cells_of; lia).
  replace (length written + length rows - length written) with (length rows) by lia.
  rewrite Nat.eqb_refl. unfold cells_of.
  replace (length written) with (length (map (@Some Row) written)) at 1
    by apply length_map.
  rewrite firstn_app, firstn_all, Nat.sub_diag, firstn_O, app_nil_r.
  rewrite skipn_app, length_map.
  rewrite skipn_all2 by (rewrite length_map; lia).
  rewrite skipn_repeat. cbn [app].
  rewrite map_app, <- app_assoc, length_app.
  replace (total_frames - length written
           - (length written + length rows - length written))
    with (total_frames - (length written + length rows)) by lia.
  reflexivity.
Qed.
Lemma episode_body_ok (store_path : Path) (done rest : list nat)
    (total_frames : nat) (goal_body : Body) (imgs : list Img)
    (states : list State) (actions : list Act) (episode_ids : list nat)
    (i0 i1 : nat) (written : list Row) (tr : list Event) :
  (area (goal_shape goal_body) =? 0)%float = false ->
  i0 + min_frames (length done) <= i1 ->
  i1 <= length imgs -> i1 <= length states ->
  i1 <= length actions -> i1 <= length episode_ids ->
  i1 <= total_frames ->
  forallb (Nat.eqb (length done)) (slice episode_ids i0 i1) = true ->
  length written <= i0 ->
  (length done = 0 -> written = []) ->
  episode_body store_path (done ++ i1 :: rest) total_frames goal_body imgs
    states actions episode_ids (length done)
    (mkLoop i0 (length written)
       (if length done =? 0 then None else Some (cells_of total_frames written))
       tr)
  = (mkLoop i1
       (length written + (i1 - i0 - 1))
       (Some (cells_of total_frames
                (written
                 ++ transitions goal_body imgs states actions episode_ids i0 i1)))
       (tr ++ step_trace store_path total_frames states (length done)
                (length written) i0 i1),
     None).
Proof.
  intros Hgoal Hmin Hi Hs Ha He Ht Hids Hw Hfirst.
  assert (Hlt : i0 < i1) by (unfold min_frames in Hmin; destruct (length done =? 0); lia).
  unfold episode_body. cbn [idx0 idxtd td_data trace].
  rewrite getitem_middle. cbn [bind].
  rewrite make_episode_ok by assumption. cbn [bind].
  pose proof (length_transitions goal_body imgs states actions episode_ids
                i0 i1 Hi Hs Ha He) as Hlen.
  unfold step_trace.
  destruct (Nat.eqb_spec (length done) 0) as [Hz|Hnz].
  - rewrite (Hfirst Hz) in *. unfold min_frames in Hmin. rewrite Hz in Hmin.
    cbn [Nat.eqb] in Hmin.
    unfold getitem.
    destruct (nth_error (transitions goal_body imgs states actions episode_ids i0 i1) 0)
      as [row0|] eqn:Hrow0.
    2:{ apply nth_error_None in Hrow0. lia. }
    cbn [bind idx0 idxtd td_data trace length Nat.add].
    pose proof (setslice_append total_frames []
                  (transitions goal_body imgs states actions episode_ids i0 i1))
      as Hset.
    unfold cells_of at 1 in Hset. cbn [map app length Nat.add] in Hset.
    rewrite Nat.sub_0_r in Hset. rewrite Hset by lia.
    cbn [bind app]. rewrite Hlen, <- !app_assoc. reflexivity.
  - cbn [bind idx0 idxtd td_data trace].
    rewrite setslice_append by lia.
    cbn [bind]. rewrite Hlen, <- !app_assoc. cbn [app]. reflexivity.
Qed.

Lemma episode_loop_from (store_path : Path) (total_frames : nat)
    (goal_body : Body) (imgs : list Img) (states : list State)
    (actions : list Act) (episode_ids : list nat) (bound : nat) :
  (area (goal_shape goal_body) =? 0)%float = false ->
  bound <= length imgs -> bound <= length states ->
  bound <= length actions -> bound <= length episode_ids ->
  bound <= total_frames ->
  forall (rest done : list nat) (i0 : nat) (written : list Row)
         (tr : list Event),
    episodes_ok episode_ids bound (length done) i0 rest = true ->
    length written <= i0 ->
    (length done = 0 -> written = []) ->
    rest <> [] ->
    for_range
      (episode_body store_path (done ++ rest) total_frames goal_body imgs
         states actions episode_ids)
      (seq (length done) (length rest))
      (mkLoop i0 (length written)
         (if length done =? 0 then None else Some (cells_of total_frames written))
         tr)
    = (mkLoop (last rest i0)
         (length (written
                  ++ concat (expected_blocks goal_body imgs states actions
                               episode_ids i0 rest)))
         (Some (cells_of total_frames
                  (written
                   ++ concat (expected_blocks goal_body imgs states actions
                                episode_ids i0 rest))))
         (tr ++ expected_trace store_path total_frames states (length done)
                  (length written) i0 rest),
       None).
Proof.
  intros Hgoal Hi Hs Ha He Ht.
  induction rest as [|i1 rest IH]; intros done i0 written tr Hok Hw Hfirst Hne;
    [congruence|].
  cbn [episodes_ok] in Hok.
  apply andb_prop in Hok as [Hok Hrest].
  apply andb_prop in Hok as [Hok Hids].
  apply andb_prop in Hok as [Hmin Hbound].
  apply Nat.leb_le in Hmin, Hbound.
  cbn [length seq for_range].
  rewrite episode_body_ok by (try assumption; lia).
  pose proof (length_transitions goal_body imgs states actions episode_ids
                i0 i1 ltac:(lia) ltac:(lia) ltac:(lia) ltac:(lia)) as Hlen.
  assert (Hlt : i0 < i1)
    by (unfold min_frames in Hmin; destruct (length done =? 0); lia).
  destruct rest as [|i2 rest].
  - cbn [length seq for_range expected_blocks concat expected_trace last].
    rewrite !app_nil_r, length_app, Hlen. reflexivity.
  - specialize (IH (done ++ [i1]) i1
                  (written ++ transitions goal_body imgs states actions
                                episode_ids i0 i1)
                  (tr ++ step_trace store_path total_frames states
                           (length done) (length written) i0 i1)).
    rewrite length_app in IH. cbn [length] in IH.
    rewrite Nat.add_1_r in IH. cbn [Nat.eqb] in IH.
    rewrite <- app_assoc in IH. cbn [app] in IH.
    rewrite length_app, Hlen in IH.
    cbn [length]. cbn [length] in IH. rewrite IH; [| exact Hrest | lia | discriminate | discriminate ].
    cbn [expected_blocks concat expected_trace].
    rewrite <- !app_assoc.
    change (last (i1 :: i2 :: rest) i0) with (last (i2 :: rest) i0).
    replace (last (i2 :: rest) i1) with (last (i2 :: rest) i0)
      by (clear; revert i2; induction rest as [|x r IHr]; intros i2;
          [reflexivity | apply (IHr x)]).
    reflexivity.
Qed.
Lemma frame_counts_nonempty (dataset_dict : ReplayBuffer) :
  (length (frame_counts dataset_dict) =? 0) = false.
Proof.
  apply Nat.eqb_neq. unfold frame_counts.
  set (counts := length (data_img dataset_dict) :: _).
  assert (Hin : In (length (data_img dataset_dict)) (nodup Nat.eq_dec counts))
    by (apply nodup_In; left; reflexivity).
  destruct (nodup Nat.eq_dec counts); [destruct Hin | discriminate].
Qed.

Lemma preproc_loop_ok (store_path : Path) (dataset_dict : ReplayBuffer) :
  well_formed dataset_dict = true ->
  (area (goal_shape the_goal_body) =? 0)%float = false ->
  let total_frames := length (data_action dataset_dict) in
  let written :=
    concat (expected_blocks the_goal_body
              (map rearrange (data_img dataset_dict))
              (data_state dataset_dict) (data_action dataset_dict)
              (get_episode_idxs dataset_dict) 0
              (meta_episode_ends dataset_dict)) in
  preproc_loop store_path dataset_dict
  = (mkLoop total_frames (length written)
       (Some (cells_of total_frames written))
       (expected_trace store_path total_frames (data_state dataset_dict)
          0 0 0 (meta_episode_ends dataset_dict)),
     None).
Proof.
  intros Hwf Hgoal total_frames written.
  unfold well_formed in Hwf. fold total_frames in Hwf.
  repeat (apply andb_prop in Hwf as [Hwf ?]).
  repeat match goal with
         | H : (_ =? _) = true |- _ => apply Nat.eqb_eq in H
         end.
  apply negb_true_iff, Nat.eqb_neq in Hwf.
  unfold preproc_loop. rewrite frame_counts_nonempty. cbn [negb py_assert].
  pose proof (episode_loop_from store_path total_frames the_goal_body
                (map rearrange (data_img dataset_dict))
                (data_state dataset_dict) (data_action dataset_dict)
                (get_episode_idxs dataset_dict) total_frames Hgoal) as Hloop.
  rewrite length_map in Hloop.
  specialize (Hloop ltac:(lia) ltac:(lia) ltac:(subst total_frames; lia)
                ltac:(lia) ltac:(lia)
                (meta_episode_ends dataset_dict) [] 0 [] []).
  cbn [length app Nat.eqb] in Hloop.
  unfold range. fold total_frames.
  change (get_goal_pose_body goal_pos_angle) with the_goal_body.
  rewrite Hloop.
  - fold written. replace (last (meta_episode_ends dataset_dict) 0) with total_frames
      by congruence.
    reflexivity.
  - assumption.
  - apply Nat.le_refl.
  - reflexivity.
  - intros Hnil. rewrite Hnil in Hwf. apply Hwf. reflexivity.
Qed.

(** ** Blocks of rows laid end to end *)

Lemma last_cons (l : list nat) (a d : nat) : last (a :: l) d = last l a.
Proof.
  revert a d. induction l as [|b l IH]; intros a d; [reflexivity|].
  change (last (a :: b :: l) d) with (last (b :: l) d).
  rewrite !IH. reflexivity.
Qed.

Lemma contiguous_ranges {A : Type} (blocks : list (list A)) (start : nat) :
  contiguous_from start (ranges_from start blocks).
Proof.
  revert start. induction blocks as [|b blocks IH]; intros start; cbn; [exact I|].
  repeat split; [lia | apply IH].
Qed.

Lemma length_ranges_from {A : Type} (blocks : list (list A)) (start : nat) :
  length (ranges_from start blocks) = length blocks.
Proof.
  revert start. induction blocks as [|b blocks IH]; intros start; cbn;
    [reflexivity | rewrite IH; reflexivity].
Qed.

Lemma ranges_lookup {A : Type} (blocks : list (list A)) (start k lo hi : nat) :
  nth_error (ranges_from start blocks) k = Some (lo, hi) ->
  exists b, nth_error blocks k = Some b /\ hi = lo + length b /\ start <= lo
            /\ forall j, j < length b ->
                 nth_error (concat blocks) (lo - start + j) = nth_error b j.
Proof.
  revert start k. induction blocks as [|b0 blocks IH]; intros start k Hk.
  - destruct k; discriminate.
  - destruct k as [|k]; cbn in Hk.
    + injection Hk as <- <-. exists b0. repeat split; [lia|].
      intros j Hj. cbn [concat]. rewrite Nat.sub_diag.
      apply nth_error_app1. exact Hj.
    + destruct (IH _ _ Hk) as (b & Hb & Hhi & Hlo & Hnth).
      exists b. repeat split; [exact Hb | exact Hhi | lia |].
      intros j Hj. cbn [concat]. rewrite nth_error_app2 by lia.
      rewrite <- (Hnth j Hj). f_equal. lia.
Qed.

Lemma ranges_cover {A : Type} (blocks : list (list A)) (start i : nat) :
  i < length (concat blocks) ->
  exists k lo hi, nth_error (ranges_from start blocks) k = Some (lo, hi)
                  /\ lo <= start + i < hi.
Proof.
  revert start i. induction blocks as [|b0 blocks IH]; intros start i Hi.
  - cbn in Hi. lia.
  - cbn [concat] in Hi. rewrite length_app in Hi.
    destruct (Nat.lt_ge_cases i (length b0)) as [Hlt|Hge].
    + exists 0, start, (start + length b0). split; [reflexivity | lia].
    + destruct (IH (start + length b0) (i - length b0) ltac:(lia))
        as (k & lo & hi & Hk & Hin).
      exists (S k), lo, hi. split; [exact Hk | lia].
Qed.

Lemma writes_of_app (tr1 tr2 : list Event) :
  writes_of (tr1 ++ tr2) = writes_of tr1 ++ writes_of tr2.
Proof. apply flat_map_app. Qed.

Lemma writes_of_labels (state : list State) :
  writes_of (map label_event state) = [].
Proof. induction state as [|s state IH]; [reflexivity | exact IH]. Qed.

Lemma writes_of_step (store_path : Path) (total_frames : nat)
    (states : list State) (episode_id itd i0 i1 : nat) :
  writes_of (step_trace store_path total_frames states episode_id itd i0 i1)
  = [(itd, itd + (i1 - i0 - 1))].
Proof.
  unfold step_trace. rewrite !writes_of_app, writes_of_labels.
  destruct (episode_id =? 0); reflexivity.
Qed.

Section Blocks.

Variables (store_path : Path) (total_frames : nat) (goal_body : Body)
  (imgs : list Img) (states : list State) (actions : list Act)
  (episode_ids : list nat) (bound : nat).

Hypothesis bound_imgs : bound <= length imgs.
Hypothesis bound_states : bound <= length states.
Hypothesis bound_actions : bound <= length actions.
Hypothesis bound_ids : bound <= length episode_ids.

Lemma writes_expected (rest : list nat) (episode_id itd i0 : nat) :
  episodes_ok episode_ids bound episode_id i0 rest = true ->
  writes_of (expected_trace store_path total_frames states episode_id itd i0 rest)
  = ranges_from itd
      (expected_blocks goal_body imgs states actions episode_ids i0 rest).
Proof.
  revert episode_id itd i0.
  induction rest as [|i1 rest IH]; intros episode_id itd i0 Hok; [reflexivity|].
  cbn [episodes_ok] in Hok.
  apply andb_prop in Hok as [Hok Hrest].
  apply andb_prop in Hok as [Hok _].
  apply andb_prop in Hok as [_ Hbound]. apply Nat.leb_le in Hbound.
  cbn [expected_trace expected_blocks ranges_from].
  rewrite writes_of_app, writes_of_step, (IH _ _ _ Hrest).
  rewrite length_transitions by lia. reflexivity.
Qed.

Lemma length_expected_blocks (rest : list nat) (i0 : nat) :
  length (expected_blocks goal_body imgs states actions episode_ids i0 rest)
  = length rest.
Proof.
  revert i0. induction rest as [|i1 rest IH]; intros i0; cbn;
    [reflexivity | rewrite IH; reflexivity].
Qed.

Lemma blocks_lookup (rest : list nat) (episode_id i0 k : nat) (b : list Row) :
  episodes_ok episode_ids bound episode_id i0 rest = true ->
  nth_error (expected_blocks goal_body imgs states actions episode_ids i0 rest) k
  = Some b ->
  exists a c, b = transitions goal_body imgs states actions episode_ids a c
              /\ a < c /\ c <= bound
              /\ forallb (Nat.eqb (episode_id + k)) (slice episode_ids a c) = true.
Proof.
  revert episode_id i0 k.
  induction rest as [|i1 rest IH]; intros episode_id i0 k Hok Hk.
  - destruct k; discriminate.
  - cbn [episodes_ok] in Hok.
    apply andb_prop in Hok as [Hok Hrest].
    apply andb_prop in Hok as [Hok Hids].
    apply andb_prop in Hok as [Hmin Hbound].
    apply Nat.leb_le in Hmin, Hbound.
    destruct k as [|k]; cbn in Hk.
    + injection Hk as <-. exists i0, i1. rewrite Nat.add_0_r.
      repeat split; try assumption.
      unfold min_frames in Hmin. destruct (episode_id =? 0); lia.
    + destruct (IH _ _ _ Hrest Hk) as (a & c & Hb & Hac & Hc & Hall).
      exists a, c. replace (episode_id + S k) with (S episode_id + k) by lia.
      repeat split; assumption.
Qed.

Lemma written_total (rest : list nat) (episode_id i0 : nat) :
  episodes_ok episode_ids bound episode_id i0 rest = true ->
  length (concat (expected_blocks goal_body imgs states actions episode_ids
                    i0 rest))
  + length rest + i0 = last rest i0.
Proof.
  revert episode_id i0.
  induction rest as [|i1 rest IH]; intros episode_id i0 Hok; [reflexivity|].
  cbn [episodes_ok] in Hok.
  apply andb_prop in Hok as [Hok Hrest].
  apply andb_prop in Hok as [Hok _].
  apply andb_prop in Hok as [Hmin Hbound].
  apply Nat.leb_le in Hmin, Hbound.
  assert (Hlt : i0 < i1) by (unfold min_frames in Hmin; destruct (episode_id =? 0); lia).
  cbn [expected_blocks concat length]. rewrite length_app, length_transitions by lia.
  rewrite last_cons. specialize (IH _ _ Hrest). lia.
Qed.

Lemma transitions_row (episode_id a c j : nat) :
  S j < c - a -> c <= bound ->
  forallb (Nat.eqb episode_id) (slice episode_ids a c) = true ->
  exists row,
    nth_error (transitions goal_body imgs states actions episode_ids a c) j
    = Some row
    /\ episode row = episode_id /\ frame_id row = j
    /\ next_done row = (S (S j) =? c - a).
Proof.
  intros Hj Hc Hids.
  destruct (transitions_pointwise goal_body imgs states actions episode_ids
              episode_id a c j ltac:(lia) ltac:(lia) ltac:(lia) ltac:(lia)
              Hids ltac:(lia))
    as (im & st & ac & im' & st' & _ & _ & _ & _ & _ & Hrow).
  eexists. split; [exact Hrow |]. cbn [episode frame_id next_done].
  repeat split.
  destruct (Nat.eqb_spec (j + 1) (c - a - 1)), (Nat.eqb_spec (S (S j)) (c - a));
    (reflexivity || (exfalso; lia)).
Qed.

End Blocks.

(** ** Floats *)

Lemma ltb_leb (x y : float) : (x <? y)%float = true -> (x <=? y)%float = true.
Proof.
  rewrite ltb_spec, leb_spec. unfold SFltb, SFleb.
  destruct (SFcompare (Prim2SF x) (Prim2SF y)) as [[| |]|]; congruence.
Qed.

Lemma np_clip_unit_range (x : float) :
  PrimFloat.is_nan x = false ->
  (0 <=? np_clip x 0 1)%float = true /\ (np_clip x 0 1 <=? 1)%float = true.
Proof.
  intros Hnan. unfold np_clip, np_max. rewrite Hnan.
  destruct (0 <? x)%float eqn:Hpos.
  - unfold np_min. rewrite Hnan.
    destruct (x <? 1)%float eqn:Hone.
    + split; apply ltb_leb; assumption.
    + split; reflexivity.
  - split; reflexivity.
Qed.

(** ** The claims about one episode *)

(** C1. An episode of [F >= 2] raw frames, the frames [i0 .. i1 - 1] of the
    capture, gives exactly [F - 1] transition records. Record [j] has frame
    [j] as its current observation and action (image, agent position,
    action, episode index, frame id [j]) and frame [j + 1] as its next
    observation, reward, success and done flag. No record has the last
    frame [F - 1] as its current frame: every frame id is below [F - 1], and
    that frame is the next frame of the last record, [j = F - 2]. *)
Theorem episode_pairs_consecutive_frames (goal_body : Body) (imgs : list Img)
    (states : list State) (actions : list Act) (episode_ids : list nat)
    (episode_id i0 i1 : nat) :
  (area (goal_shape goal_body) =? 0)%float = false ->
  i0 + 2 <= i1 ->
  i1 <= length imgs -> i1 <= length states ->
  i1 <= length actions -> i1 <= length episode_ids ->
  forallb (Nat.eqb episode_id) (slice episode_ids i0 i1) = true ->
  exists rows evs,
    make_episode goal_body imgs states actions episode_ids episode_id i0 i1
    = Ok (rows, evs)
    /\ length rows = (i1 - i0) - 1
    /\ (forall j, j < (i1 - i0) - 1 ->
          exists im st ac im' st',
            nth_error imgs (i0 + j) = Some im
            /\ nth_error states (i0 + j) = Some st
            /\ nth_error actions (i0 + j) = Some ac
            /\ nth_error imgs (i0 + (j + 1)) = Some im'
            /\ nth_error states (i0 + (j + 1)) = Some st'
            /\ nth_error rows j
               = Some (mkRow im (agent_pos_of st) ac episode_id j
                         im' (agent_pos_of st')
                         (reward_of (state_coverage goal_body st'))
                         (j + 1 =? (i1 - i0) - 1)
                         (success_of (state_coverage goal_body st'))))
    /\ (forall row, In row rows -> frame_id row < (i1 - i0) - 1).
Proof.
  intros Hgoal Hmin Hi Hs Ha He Hids.
  pose proof (fun j => transitions_pointwise goal_body imgs states actions
                          episode_ids episode_id i0 i1 j Hi Hs Ha He Hids)
    as Hrow.
  exists (transitions goal_body imgs states actions episode_ids i0 i1),
         (map label_event (slice states i0 i1)).
  split; [apply make_episode_ok; (assumption || lia) |].
  split; [apply length_transitions; assumption |].
  split; [exact Hrow |].
  intros row Hin. apply In_nth_error in Hin as [j Hj].
  assert (Hjlt : j < i1 - i0 - 1).
  { rewrite <- (length_transitions goal_body imgs states actions episode_ids i0 i1)
      by assumption.
    apply nth_error_Some. congruence. }
  destruct (Hrow j Hjlt) as (im & st & ac & im' & st' & _ & _ & _ & _ & _ & Hnth).
  rewrite Hnth in Hj. injection Hj as <-. exact Hjlt.
Qed.

(** C2. Every frame of an episode is labelled from its own object pose
    alone. With the coverage of a frame being the area of the goal shape
    that the T at the frame's block pose overlaps, divided by the area of
    the goal shape, the labelling loop stores for frame [i] the reward
    [clip (coverage / 0.95) 0 1], narrowed to the tensor's single precision,
    and the success flag [coverage > 0.95]. The reward lies between 0 and 1
    (for a quotient that is a number, and a narrowing that is monotone and
    leaves 0 and 1 as they are). A frame with the same block pose in any
    other episode, at any place in it, gets the same two labels. *)
Theorem frame_labels_from_coverage (goal_body : Body) (state : list State) :
  (area (goal_shape goal_body) =? 0)%float = false ->
  (forall x y, (x <=? y)%float = true ->
               (to_float32 x <=? to_float32 y)%float = true) ->
  to_float32 0 = 0%float ->
  to_float32 1 = 1%float ->
  exists lab,
    label_frames goal_body (map block_pos_of state) (map block_angle_of state)
      (length state)
      (mkLabels (repeat 0%float (length state)) (repeat false (length state)) [])
    = Ok lab
    /\ forall i s, nth_error state i = Some s ->
         let c := coverage goal_body (block_pos_of s) (block_angle_of s) in
         nth_error (reward lab) i
         = Some (to_float32 (np_clip (c / SUCCESS_THRESHOLD) 0 1))
         /\ nth_error (success lab) i = Some (SUCCESS_THRESHOLD <? c)%float
         /\ (PrimFloat.is_nan (c / SUCCESS_THRESHOLD) = false ->
             exists r, nth_error (reward lab) i = Some r
                       /\ (0 <=? r)%float = true /\ (r <=? 1)%float = true)
         /\ (forall state' lab' i' s',
               label_frames goal_body (map block_pos_of state')
                 (map block_angle_of state') (length state')
                 (mkLabels (repeat 0%float (length state'))
                    (repeat false (length state')) [])
               = Ok lab' ->
               nth_error state' i' = Some s' ->
               block_pos_of s' = block_pos_of s ->
               block_angle_of s' = block_angle_of s ->
               nth_error (reward lab') i' = nth_error (reward lab) i
               /\ nth_error (success lab') i' = nth_error (success lab) i).
Proof.
  intros Hgoal Hmono H0 H1.
  eexists. split; [apply label_loop; [exact Hgoal | reflexivity] |].
  intros i s Hs c. cbn [reward success].
  rewrite !nth_error_map, Hs. cbn [option_map].
  split; [reflexivity |]. split; [reflexivity |]. split.
  - intros Hnan. eexists. split; [reflexivity |].
    destruct (np_clip_unit_range _ Hnan) as [Hlo Hhi].
    unfold reward_of, state_coverage. fold c.
    apply Hmono in Hlo, Hhi. rewrite H0 in Hlo. rewrite H1 in Hhi.
    split; assumption.
  - intros state' lab' i' s' Hlab' Hs' Hpos Hang.
    rewrite label_loop in Hlab' by (exact Hgoal || reflexivity).
    injection Hlab' as <-. cbn [reward success].
    rewrite !nth_error_map, Hs'. cbn [option_map].
    unfold state_coverage. rewrite Hpos, Hang. split; reflexivity.
Qed.

Lemma slice_middle {A : Type} (pre : list A) (a : A) (post : list A) (b : nat) :
  length pre < b ->
  slice (pre ++ a :: post) (length pre) b = a :: firstn (b - length pre - 1) post.
Proof.
  intros Hb. unfold slice. rewrite skipn_app, skipn_all, Nat.sub_diag.
  cbn [app skipn]. destruct (b - length pre) as [|n] eqn:Hn; [lia|].
  cbn [firstn]. replace (S n - 1) with n by lia. reflexivity.
Qed.

(** C9. The reward and success computed for the first frame of an episode
    are thrown away. The labelling loop does evaluate the geometry at the
    first frame's block pose, but the reward and success stored in record
    [j] are those of frame [j + 1], and the records of the episode stay the
    same, whatever block pose the first frame has. *)
Theorem first_frame_label_discarded (goal_body : Body) (imgs : list Img)
    (pre post : list State) (s0 s0' : State) (actions : list Act)
    (episode_ids : list nat) (episode_id i1 : nat) :
  (area (goal_shape goal_body) =? 0)%float = false ->
  length pre + 2 <= i1 ->
  i1 <= length imgs -> i1 <= length (pre ++ s0 :: post) ->
  i1 <= length actions -> i1 <= length episode_ids ->
  forallb (Nat.eqb episode_id) (slice episode_ids (length pre) i1) = true ->
  agent_pos_of s0' = agent_pos_of s0 ->
  exists rows evs evs',
    make_episode goal_body imgs (pre ++ s0 :: post) actions episode_ids
      episode_id (length pre) i1 = Ok (rows, evs)
    /\ In (EvLabelFrame (block_pos_of s0) (block_angle_of s0)) evs
    /\ (forall j row, nth_error rows j = Some row ->
          exists st',
            nth_error (pre ++ s0 :: post) (length pre + (j + 1)) = Some st'
            /\ next_reward row = reward_of (state_coverage goal_body st')
            /\ next_success row = success_of (state_coverage goal_body st'))
    /\ make_episode goal_body imgs (pre ++ s0' :: post) actions episode_ids
         episode_id (length pre) i1 = Ok (rows, evs').
Proof.
  intros Hgoal Hmin Hi Hs Ha He Hids Hagent.
  assert (Hs' : i1 <= length (pre ++ s0' :: post))
    by (rewrite length_app in *; exact Hs).
  exists (transitions goal_body imgs (pre ++ s0 :: post) actions episode_ids
            (length pre) i1),
         (map label_event (slice (pre ++ s0 :: post) (length pre) i1)),
         (map label_event (slice (pre ++ s0' :: post) (length pre) i1)).
  split; [apply make_episode_ok; (assumption || lia) |].
  split.
  { rewrite slice_middle by lia. left. reflexivity. }
  split.
  { intros j row Hj.
    assert (Hjlt : j < i1 - length pre - 1).
    { rewrite <- (length_transitions goal_body imgs (pre ++ s0 :: post) actions
                    episode_ids (length pre) i1) by assumption.
      apply nth_error_Some. congruence. }
    destruct (transitions_pointwise goal_body imgs (pre ++ s0 :: post) actions
                episode_ids episode_id (length pre) i1 j Hi Hs Ha He Hids Hjlt)
      as (im & st & ac & im' & st' & _ & _ & _ & _ & Hst' & Hnth).
    rewrite Hnth in Hj. injection Hj as <-.
    exists st'. repeat split. exact Hst'. }
  rewrite make_episode_ok by (assumption || lia).
  do 2 f_equal. unfold transitions.
  rewrite !slice_middle by lia.
  cbn [map drop_first tl]. rewrite Hagent. reflexivity.
Qed.

(** ** The claims about the store *)

Lemma nth_error_cells_of (total_frames : nat) (written : list Row) (i : nat)
    (row : Row) :
  nth_error (cells_of total_frames written) i = Some (Some row) ->
  i < length written /\ nth_error written i = Some row.
Proof.
  intros Hcell. unfold cells_of in Hcell.
  destruct (Nat.lt_ge_cases i (length written)) as [Hlt|Hge].
  - split; [exact Hlt|].
    rewrite nth_error_app1 in Hcell by (rewrite length_map; exact Hlt).
    rewrite nth_error_map in Hcell.
    destruct (nth_error written i); cbn in Hcell; congruence.
  - rewrite nth_error_app2 in Hcell by (rewrite length_map; exact Hge).
    destruct (Nat.lt_ge_cases (i - length (map (@Some Row) written))
                (total_frames - length written)) as [Hin|Hout].
    + rewrite nth_error_repeat in Hcell by exact Hin. discriminate.
    + assert (Hnone : nth_error (repeat (@None Row) (total_frames - length written))
                        (i - length (map (@Some Row) written)) = None)
        by (apply nth_error_None; rewrite repeat_length; exact Hout).
      congruence.
Qed.

Lemma nth_error_cells_written (total_frames : nat) (written : list Row)
    (i : nat) :
  i < length written ->
  exists row, nth_error written i = Some row
              /\ nth_error (cells_of total_frames written) i = Some (Some row).
Proof.
  intros Hlt. destruct (nth_error written i) as [row|] eqn:Hrow;
    [| apply nth_error_None in Hrow; lia].
  exists row. split; [reflexivity|].
  unfold cells_of. rewrite nth_error_app1 by (rewrite length_map; exact Hlt).
  rewrite nth_error_map, Hrow. reflexivity.
Qed.

Lemma nth_error_cells_slack (total_frames : nat) (written : list Row) (i : nat) :
  length written <= i < total_frames ->
  nth_error (cells_of total_frames written) i = Some None.
Proof.
  intros Hi. unfold cells_of.
  rewrite nth_error_app2 by (rewrite length_map; lia).
  apply nth_error_repeat. rewrite length_map. lia.
Qed.

(** What the proofs below read off a well-formed capture. *)
Lemma well_formed_inv (dataset_dict : ReplayBuffer) :
  well_formed dataset_dict = true ->
  let n := length (data_action dataset_dict) in
  meta_episode_ends dataset_dict <> []
  /\ length (map rearrange (data_img dataset_dict)) = n
  /\ length (data_state dataset_dict) = n
  /\ length (get_episode_idxs dataset_dict) = n
  /\ last (meta_episode_ends dataset_dict) 0 = n
  /\ episodes_ok (get_episode_idxs dataset_dict) n 0 0
       (meta_episode_ends dataset_dict) = true.
Proof.
  intros Hwf n. unfold well_formed in Hwf. fold n in Hwf.
  repeat (apply andb_prop in Hwf as [Hwf ?]).
  repeat match goal with
         | H : (_ =? _) = true |- _ => apply Nat.eqb_eq in H
         end.
  apply negb_true_iff, Nat.eqb_neq in Hwf.
  rewrite length_map. repeat split; try assumption.
  intros Hnil. rewrite Hnil in Hwf. apply Hwf. reflexivity.
Qed.

(** The written row at cell [i], the range its episode was written to, and
    its place in that range. *)
Lemma written_row_inv (goal_body : Body) (imgs : list Img)
    (states : list State) (actions : list Act) (episode_ids ends : list nat)
    (bound i : nat) (row : Row) :
  bound <= length imgs -> bound <= length states ->
  bound <= length actions -> bound <= length episode_ids ->
  episodes_ok episode_ids bound 0 0 ends = true ->
  nth_error
    (concat (expected_blocks goal_body imgs states actions episode_ids 0 ends)) i
  = Some row ->
  exists lo hi,
    nth_error
      (ranges_from 0
         (expected_blocks goal_body imgs states actions episode_ids 0 ends))
      (episode row) = Some (lo, hi)
    /\ lo <= i < hi
    /\ (next_done row = true <-> i + 1 = hi).
Proof.
  intros Hi Hs Ha He Hok Hrow.
  set (blocks := expected_blocks goal_body imgs states actions episode_ids 0 ends)
    in *.
  assert (Hlt : i < length (concat blocks)) by (apply nth_error_Some; congruence).
  destruct (ranges_cover blocks 0 i Hlt) as (k & lo & hi & Hk & Hin).
  cbn [Nat.add] in Hin.
  destruct (ranges_lookup blocks 0 k lo hi Hk) as (b & Hb & Hhi & _ & Hnth).
  destruct (blocks_lookup goal_body imgs states actions episode_ids bound
              Hi Hs Ha He ends 0 0 k b Hok Hb)
    as (a & c & Hbeq & Hac & Hc & Hids).
  cbn [Nat.add] in Hids.
  assert (Hlen : length b = c - a - 1)
    by (rewrite Hbeq; apply length_transitions; lia).
  specialize (Hnth (i - lo) ltac:(lia)).
  rewrite Nat.sub_0_r in Hnth. replace (lo + (i - lo)) with i in Hnth by lia.
  rewrite Hrow, Hbeq in Hnth.
  destruct (transitions_row goal_body imgs states actions episode_ids bound
              Hi Hs Ha He k a c (i - lo) ltac:(lia) Hc Hids)
    as (row' & Hrow' & Hep & _ & Hdone).
  rewrite Hrow' in Hnth. injection Hnth as ->.
  rewrite Hep. exists lo, hi. split; [exact Hk|]. split; [lia|].
  rewrite Hdone, Nat.eqb_eq. lia.
Qed.

(** C3. In the store of a finished build, for every cell that holds a
    record: the record's episode was written to one range [lo .. hi - 1] of
    cells, the cell lies in it, and the record's done flag is true exactly
    when the cell is the last of that range, [hi - 1]. *)
Theorem done_marks_last_record_of_episode (store_path : Path)
    (dataset_dict : ReplayBuffer) :
  well_formed dataset_dict = true ->
  (area (goal_shape the_goal_body) =? 0)%float = false ->
  exists st cells,
    preproc_loop store_path dataset_dict = (st, None)
    /\ td_data st = Some cells
    /\ forall i row, nth_error cells i = Some (Some row) ->
         exists lo hi,
           nth_error (writes_of (trace st)) (episode row) = Some (lo, hi)
           /\ lo <= i < hi
           /\ (next_done row = true <-> i + 1 = hi).
Proof.
  intros Hwf Hgoal.
  destruct (well_formed_inv dataset_dict Hwf) as (_ & Hi & Hs & He & _ & Hok).
  eexists. eexists.
  split; [apply (preproc_loop_ok store_path dataset_dict Hwf Hgoal) |].
  split; [reflexivity |].
  intros i row Hcell. cbn [trace].
  apply nth_error_cells_of in Hcell as [_ Hrow].
  rewrite (writes_expected store_path _ the_goal_body
             (map rearrange (data_img dataset_dict)) (data_state dataset_dict)
             (data_action dataset_dict) (get_episode_idxs dataset_dict)
             (length (data_action dataset_dict)))
    by (assumption || lia).
  apply (written_row_inv the_goal_body _ _ _ _ _
           (length (data_action dataset_dict))); (assumption || lia).
Qed.

(** C4. A finished build leaves a store with as many cells as the capture
    has raw frames. It has made one write per episode, in the order of the
    episode ids; the ranges written lie end to end from cell 0, each
    starting at the cell after the last cell of the one before, and the
    range of the [k]-th write holds records of episode [k] only. The rows
    written are the raw frames less one per episode: the cells below that
    number all hold a record, and the cells from there to the end of the
    store were never written. *)
Theorem store_layout (store_path : Path) (dataset_dict : ReplayBuffer) :
  well_formed dataset_dict = true ->
  (area (goal_shape the_goal_body) =? 0)%float = false ->
  exists st cells,
    preproc_loop store_path dataset_dict = (st, None)
    /\ td_data st = Some cells
    /\ length cells = length (data_action dataset_dict)
    /\ length (writes_of (trace st)) = length (meta_episode_ends dataset_dict)
    /\ contiguous_from 0 (writes_of (trace st))
    /\ (forall k lo hi i,
          nth_error (writes_of (trace st)) k = Some (lo, hi) ->
          lo <= i < hi ->
          exists row, nth_error cells i = Some (Some row) /\ episode row = k)
    /\ idxtd st
       = length (data_action dataset_dict)
         - length (meta_episode_ends dataset_dict)
    /\ (forall i, i < idxtd st ->
          exists row, nth_error cells i = Some (Some row))
    /\ (forall i, idxtd st <= i < length (data_action dataset_dict) ->
          nth_error cells i = Some None).
Proof.
  intros Hwf Hgoal.
  destruct (well_formed_inv dataset_dict Hwf) as (_ & Hi & Hs & He & Hlast & Hok).
  set (n := length (data_action dataset_dict)) in *.
  set (imgs := map rearrange (data_img dataset_dict)) in *.
  set (states := data_state dataset_dict) in *.
  set (actions := data_action dataset_dict) in *.
  set (ids := get_episode_idxs dataset_dict) in *.
  set (ends := meta_episode_ends dataset_dict) in *.
  set (blocks := expected_blocks the_goal_body imgs states actions ids 0 ends).
  assert (Hbi : n <= length imgs) by lia.
  assert (Hbs : n <= length states) by lia.
  assert (Hba : n <= length actions) by (subst n actions; lia).
  assert (Hbe : n <= length ids) by lia.
  pose proof (written_total the_goal_body imgs states actions ids n
                Hbi Hbs Hba Hbe ends 0 0 Hok) as Htotal.
  fold blocks in Htotal. rewrite Hlast in Htotal.
  pose proof (writes_expected store_path n the_goal_body imgs states actions
                ids n Hbi Hbs Hba Hbe ends 0 0 0 Hok) as Hwrites.
  fold blocks in Hwrites.
  exists (mkLoop n (length (concat blocks))
            (Some (cells_of n (concat blocks)))
            (expected_trace store_path n states 0 0 0 ends)),
         (cells_of n (concat blocks)).
  split; [apply (preproc_loop_ok store_path dataset_dict Hwf Hgoal) |].
  cbn [td_data trace idxtd]. rewrite Hwrites.
  split; [reflexivity |].
  split; [apply length_cells_of; lia |].
  split.
  { rewrite length_ranges_from. apply length_expected_blocks. }
  split; [apply contiguous_ranges |].
  split.
  { intros k lo hi i Hk Hin.
    destruct (ranges_lookup blocks 0 k lo hi Hk) as (b & Hb & Hhi & _ & Hnth).
    destruct (blocks_lookup the_goal_body imgs states actions ids n
                Hbi Hbs Hba Hbe ends 0 0 k b Hok Hb)
      as (a & c & Hbeq & Hac & Hc & Hids).
    cbn [Nat.add] in Hids.
    assert (Hlen : length b = c - a - 1)
      by (rewrite Hbeq; apply length_transitions; lia).
    specialize (Hnth (i - lo) ltac:(lia)).
    rewrite Nat.sub_0_r in Hnth. replace (lo + (i - lo)) with i in Hnth by lia.
    destruct (transitions_row the_goal_body imgs states actions ids n
                Hbi Hbs Hba Hbe k a c (i - lo) ltac:(lia) Hc Hids)
      as (row & Hrow & Hep & _).
    rewrite Hbeq, Hrow in Hnth.
    destruct (nth_error_cells_written n (concat blocks) i) as (row' & Hw & Hcell).
    { apply nth_error_Some. congruence. }
    exists row'. split; [exact Hcell |]. congruence. }
  split; [lia |].
  split.
  { intros i Hlt.
    destruct (nth_error_cells_written n (concat blocks) i Hlt) as (row & _ & Hcell).
    exists row. exact Hcell. }
  apply nth_error_cells_slack.
Qed.

(** ** The claims about the constructor *)

Context {O : Outside}.

Lemma is_prefix_app (p q d : Path) :
  is_prefix (p ++ q) d = true -> is_prefix p d = true.
Proof.
  unfold is_prefix. intros H.
  destruct (path_eq_dec (p ++ q) (firstn (length (p ++ q)) d)) as [Heq|]; [|discriminate].
  destruct (path_eq_dec p (firstn (length p) d)) as [|Hne]; [reflexivity|].
  exfalso. apply Hne.
  assert (Hp : firstn (length p) (firstn (length (p ++ q)) d) = firstn (length p) d).
  { rewrite firstn_firstn. f_equal. rewrite length_app. lia. }
  rewrite <- Hp, <- Heq, firstn_app, firstn_all, Nat.sub_diag, firstn_O, app_nil_r.
  reflexivity.
Qed.

Lemma is_dir_parent (p q : Path) (w : World) :
  is_dir (p ++ q) w = true -> is_dir p w = true.
Proof.
  unfold is_dir. rewrite !existsb_exists.
  intros (d & Hin & Hpre). exists d. split; [exact Hin|].
  apply (is_prefix_app p q d Hpre).
Qed.

Lemma makedirs_existing (p : Path) (w : World) :
  is_dir p w = true -> makedirs p w = w.
Proof. intros H. unfold makedirs. rewrite H. reflexivity. Qed.

(** C6. When the directory of the store, [<root>/<dataset_id>], exists, the
    constructor leaves the world as it found it (no directory made, no
    download, no frame labelled, nothing written: the log of build events
    is the same), returns the store persisted there whenever its arguments
    pass the guards, and a second call does and returns the same. *)
Theorem existing_store_is_opened (args : InitArgs) (w : World) :
  is_dir (data_path_root (root_of args) (arg_dataset_id args)) w = true ->
  snd (__init__ args w) = w
  /\ (arg_streaming args = false ->
      is_not_None (arg_num_slices args) && is_not_None (arg_slice_len args)
      = false ->
      arg_split_trajs args = false ->
      fst (__init__ args w)
      = match load_memmap (data_path_root (root_of args) (arg_dataset_id args)) w with
        | Ok td => Ok (mkReplay (arg_dataset_id args) (root_of args) (mkStorage td))
        | Raise e => Raise e
        end)
  /\ __init__ args (snd (__init__ args w)) = __init__ args w.
Proof.
  intros Hdir.
  assert (Hinit :
    __init__ args w
    = if arg_streaming args then (Raise NotImplementedError, w)
      else if is_not_None (arg_num_slices args) && is_not_None (arg_slice_len args)
      then (Raise ValueError, w)
      else if arg_split_trajs args then (Raise NotImplementedError, w)
      else (match load_memmap (data_path_root (root_of args) (arg_dataset_id args)) w with
            | Ok td => Ok (mkReplay (arg_dataset_id args) (root_of args) (mkStorage td))
            | Raise e => Raise e
            end, w)).
  { unfold __init__, root_of in *.
    destruct (arg_streaming args); [reflexivity|].
    destruct (is_not_None (arg_num_slices args) && is_not_None (arg_slice_len args));
      [reflexivity|].
    destruct (arg_split_trajs args); [reflexivity|].
    destruct (arg_root args) as [r|].
    - unfold _is_downloaded. rewrite Hdir. cbn [negb].
      destruct (load_memmap _ w); reflexivity.
    - rewrite (makedirs_existing pusht_root_dir w)
        by (apply (is_dir_parent _ [arg_dataset_id args]); exact Hdir).
      unfold _is_downloaded. rewrite Hdir. cbn [negb].
      destruct (load_memmap _ w); reflexivity. }
  assert (Hsnd : snd (__init__ args w) = w).
  { rewrite Hinit.
    destruct (arg_streaming args); [reflexivity|].
    destruct (is_not_None (arg_num_slices args) && is_not_None (arg_slice_len args));
      [reflexivity|].
    destruct (arg_split_trajs args); reflexivity. }
  split; [exact Hsnd |]. split.
  - intros Hst Hsl Hsp. rewrite Hinit, Hst, Hsl, Hsp. reflexivity.
  - rewrite Hsnd. reflexivity.
Qed.

(** C10, as the code has it. The test on [streaming] comes first: a call
    with [streaming=True] raises [NotImplementedError], also when both
    [num_slices] and [slice_len] are given; a call with [streaming] false
    and both [num_slices] and [slice_len] given raises [ValueError]. Either
    way the world is left untouched: nothing is downloaded, labelled, read
    or written. *)
Theorem constructor_guards (args : InitArgs) (w : World) :
  arg_streaming args = true
  \/ (is_not_None (arg_num_slices args) = true
      /\ is_not_None (arg_slice_len args) = true) ->
  __init__ args w
  = (Raise (if arg_streaming args then NotImplementedError else ValueError), w).
Proof.
  intros Hguard. unfold __init__.
  destruct (arg_streaming args); [reflexivity|].
  destruct Hguard as [Hst | [Hns Hsl]]; [discriminate|].
  rewrite Hns, Hsl. reflexivity.
Qed.

(** C5, as the code has it. The build seals the store and returns a
    handle over the whole store, the never-written cells at its end
    included. For a capture of 2 episodes of 5 frames each (boundaries at
    frames 5 and 10) the sealed store has 10 rows, not 8: rows 0 to 7 hold
    the 8 records written, rows 8 and 9 were never written; row 3 has
    done set and episode id 0, row 7 has done set and episode id 1. *)
Theorem sealed_store_of_two_episodes (root_dir : Path) (name : string)
    (w : World) (dataset_dict : ReplayBuffer) :
  is_dir ((root_dir ++ ["raw"%string]) ++ PUSHT_ZARR) w = true ->
  copy_from_path ((root_dir ++ ["raw"%string]) ++ PUSHT_ZARR) w = Ok dataset_dict ->
  well_formed dataset_dict = true ->
  meta_episode_ends dataset_dict = [5; 10] ->
  (area (goal_shape the_goal_body) =? 0)%float = false ->
  exists st row3 row7,
    fst (_download_and_preproc root_dir name w) = Ok st
    /\ td_locked (_storage st) = true
    /\ storage_len st = 10
    /\ (forall i, i < 8 ->
          exists row, nth_error (td_cells (_storage st)) i = Some (Some row))
    /\ nth_error (td_cells (_storage st)) 8 = Some None
    /\ nth_error (td_cells (_storage st)) 9 = Some None
    /\ nth_error (td_cells (_storage st)) 3 = Some (Some row3)
    /\ next_done row3 = true /\ episode row3 = 0
    /\ nth_error (td_cells (_storage st)) 7 = Some (Some row7)
    /\ next_done row7 = true /\ episode row7 = 1.
Proof.
  intros Hdir Hcopy Hwf Hends Hgoal.
  destruct (well_formed_inv dataset_dict Hwf) as (_ & Hi & Hs & He & Hlast & Hok).
  rewrite Hends in Hlast, Hok. cbn [last] in Hlast.
  set (imgs := map rearrange (data_img dataset_dict)) in *.
  set (states := data_state dataset_dict) in *.
  set (actions := data_action dataset_dict) in *.
  set (ids := get_episode_idxs dataset_dict) in *.
  set (blocks := expected_blocks the_goal_body imgs states actions ids 0 [5; 10]).
  assert (Hbi : 10 <= length imgs) by lia.
  assert (Hbs : 10 <= length states) by lia.
  assert (Hba : 10 <= length actions) by lia.
  assert (Hbe : 10 <= length ids) by lia.
  rewrite <- Hlast in Hok.
  assert (Hranges : ranges_from 0 blocks = [(0, 4); (4, 8)]).
  { unfold blocks. cbn [expected_blocks ranges_from].
    rewrite !length_transitions by lia. reflexivity. }
  assert (Hlen : length (concat blocks) = 8).
  { pose proof (written_total the_goal_body imgs states actions ids 10
                  Hbi Hbs Hba Hbe [5; 10] 0 0 Hok) as Htotal.
    fold blocks in Htotal. cbn [length last] in Htotal. lia. }
  assert (Hdone : forall i k,
            nth_error [(0, 4); (4, 8)] k = Some (i - 3, i + 1) -> i < 8 ->
            exists row, nth_error (cells_of 10 (concat blocks)) i = Some (Some row)
                        /\ next_done row = true /\ episode row = k).
  { intros i k Hik Hlt.
    destruct (nth_error_cells_written 10 (concat blocks) i ltac:(lia))
      as (row & Hrow & Hcell).
    exists row. split; [exact Hcell|].
    destruct (written_row_inv the_goal_body imgs states actions ids [5; 10] 10 i
                row Hbi Hbs Hba Hbe Hok Hrow) as (lo & hi & Hk & Hin & Hiff).
    fold blocks in Hk. rewrite Hranges in Hk.
    destruct (episode row) as [|[|e]], k as [|[|k]]; cbn in Hk, Hik;
      try discriminate; try (destruct e; discriminate);
      try (destruct k; discriminate);
      injection Hk as <- <-; injection Hik as Hlo Hhi;
      (split; [apply Hiff; lia | lia]). }
  destruct (Hdone 3 0 eq_refl ltac:(lia)) as (row3 & Hc3 & Hd3 & He3).
  destruct (Hdone 7 1 eq_refl ltac:(lia)) as (row7 & Hc7 & Hd7 & He7).
  exists (mkStorage (lock_ (cells_of 10 (concat blocks)))), row3, row7.
  split.
  { unfold _download_and_preproc. rewrite Hdir, Hcopy.
    rewrite (preproc_loop_ok _ dataset_dict Hwf Hgoal).
    rewrite Hends. fold imgs states actions ids blocks.
    rewrite <- Hlast. reflexivity. }
  cbn [_storage lock_ td_locked td_cells storage_len].
  split; [reflexivity |].
  split; [apply length_cells_of; lia |].
  split.
  { intros i Hlt.
    destruct (nth_error_cells_written 10 (concat blocks) i ltac:(lia))
      as (row & _ & Hcell).
    exists row. exact Hcell. }
  split; [apply nth_error_cells_slack; lia |].
  split; [apply nth_error_cells_slack; lia |].
  repeat split; assumption.
Qed.

(** ** More about one episode *)

(** X1. The records of an episode chain: the next observation of a record
    is the current observation of the record after it, which belongs to the
    same episode and has the following frame id; and a record that has a
    successor does not have its done flag set. *)
Theorem records_chain (goal_body : Body) (imgs : list Img)
    (states : list State) (actions : list Act) (episode_ids : list nat)
    (episode_id i0 i1 : nat) :
  (area (goal_shape goal_body) =? 0)%float = false ->
  i0 < i1 ->
  i1 <= length imgs -> i1 <= length states ->
  i1 <= length actions -> i1 <= length episode_ids ->
  forallb (Nat.eqb episode_id) (slice episode_ids i0 i1) = true ->
  exists rows evs,
    make_episode goal_body imgs states actions episode_ids episode_id i0 i1
    = Ok (rows, evs)
    /\ forall j r r',
         nth_error rows j = Some r ->
         nth_error rows (j + 1) = Some r' ->
         next_observation_image r = observation_image r'
         /\ next_observation_state r = observation_state r'
         /\ episode r' = episode r
         /\ frame_id r' = frame_id r + 1
         /\ next_done r = false.
Proof.
  intros Hgoal Hlt Hi Hs Ha He Hids.
  exists (transitions goal_body imgs states actions episode_ids i0 i1),
         (map label_event (slice states i0 i1)).
  split; [apply make_episode_ok; assumption |].
  intros j r r' Hr Hr'.
  assert (Hj' : j + 1 < i1 - i0 - 1).
  { rewrite <- (length_transitions goal_body imgs states actions episode_ids i0 i1)
      by assumption.
    apply nth_error_Some. congruence. }
  destruct (transitions_pointwise goal_body imgs states actions episode_ids
              episode_id i0 i1 j Hi Hs Ha He Hids ltac:(lia))
    as (im & st & ac & im1 & st1 & _ & _ & _ & Him1 & Hst1 & Hrow).
  destruct (transitions_pointwise goal_body imgs states actions episode_ids
              episode_id i0 i1 (j + 1) Hi Hs Ha He Hids Hj')
    as (im1' & st1' & ac1 & im2 & st2 & Him1' & Hst1' & _ & _ & _ & Hrow').
  rewrite Hrow in Hr. rewrite Hrow' in Hr'.
  injection Hr as <-. injection Hr' as <-.
  cbn [next_observation_image observation_image next_observation_state
       observation_state episode frame_id next_done].
  repeat split; try congruence.
  apply Nat.eqb_neq. lia.
Qed.

Lemma length_zero_nil {A : Type} (l : list A) : length l = 0 -> l = [].
Proof. destruct l; [reflexivity | discriminate]. Qed.

(** X2. An episode of a single frame gives no record at all: the frame is
    labelled (one geometry evaluation) and nothing is paired with it. *)
Theorem single_frame_episode_gives_no_record (goal_body : Body)
    (imgs : list Img) (states : list State) (actions : list Act)
    (episode_ids : list nat) (episode_id i0 : nat) (s : State) :
  (area (goal_shape goal_body) =? 0)%float = false ->
  S i0 <= length imgs -> S i0 <= length actions -> S i0 <= length episode_ids ->
  nth_error states i0 = Some s ->
  nth_error episode_ids i0 = Some episode_id ->
  make_episode goal_body imgs states actions episode_ids episode_id i0 (S i0)
  = Ok ([], [EvLabelFrame (block_pos_of s) (block_angle_of s)]).
Proof.
  intros Hgoal Hi Ha He Hs Hid.
  assert (Hsl : S i0 <= length states)
    by (apply Nat.le_succ_l, nth_error_Some; congruence).
  assert (Hslice : forall (A : Type) (x : list A) (a : A),
            nth_error x i0 = Some a -> slice x i0 (S i0) = [a]).
  { intros A x a Hx. apply nth_error_split in Hx as (pre & post & -> & <-).
    rewrite slice_middle by lia.
    replace (S (length pre) - length pre - 1) with 0 by lia. reflexivity. }
  rewrite make_episode_ok; try assumption; try lia.
  - rewrite (length_zero_nil (transitions _ _ _ _ _ _ _)).
    + rewrite (Hslice _ _ _ Hs). reflexivity.
    + rewrite length_transitions by assumption. lia.
  - rewrite (Hslice _ _ _ Hid). cbn. rewrite Nat.eqb_refl. reflexivity.
Qed.

(** X3. Episode boundaries that do not increase are refused, after the
    episode-id test (it passes on the empty slice): an episode ending
    where it starts fails with [IndexError] at [done[-1] = True], and one
    ending before it starts with [RuntimeError] at the allocation of the
    label tensors. Neither labels a frame. *)
Theorem empty_or_reversed_episode_raises (goal_body : Body) (imgs : list Img)
    (states : list State) (actions : list Act) (episode_ids : list nat)
    (episode_id i0 i1 : nat) :
  i1 <= i0 ->
  make_episode goal_body imgs states actions episode_ids episode_id i0 i1
  = Raise (if i1 <? i0 then RuntimeError else IndexError).
Proof.
  intros Hle. unfold make_episode.
  assert (Hempty : slice episode_ids i0 i1 = []).
  { unfold slice. replace (i1 - i0) with 0 by lia. reflexivity. }
  rewrite Hempty. cbn [forallb py_assert bind].
  destruct (i1 <? i0); [reflexivity|].
  replace (i1 - i0) with 0 by lia. reflexivity.
Qed.

Lemma forallb_slice_false (episode_ids : list nat)
    (episode_id i0 i1 j other : nat) :
  j < i1 - i0 ->
  nth_error episode_ids (i0 + j) = Some other ->
  other <> episode_id ->
  forallb (Nat.eqb episode_id) (slice episode_ids i0 i1) = false.
Proof.
  intros Hj Hnth Hne.
  destruct (forallb (Nat.eqb episode_id) (slice episode_ids i0 i1)) eqn:Hall;
    [| reflexivity].
  exfalso. apply Hne. symmetry. apply Nat.eqb_eq.
  apply (forallb_nth_error _ (slice episode_ids i0 i1) j other Hall).
  rewrite nth_error_slice.
  destruct (Nat.ltb_spec j (i1 - i0)); [exact Hnth | lia].
Qed.

(** X4. A frame of the episode recorded under another episode index makes
    the build of the episode fail with [AssertionError], before any frame
    is labelled. *)
Theorem episode_id_mismatch_raises (goal_body : Body) (imgs : list Img)
    (states : list State) (actions : list Act) (episode_ids : list nat)
    (episode_id i0 i1 j other : nat) :
  j < i1 - i0 ->
  nth_error episode_ids (i0 + j) = Some other ->
  other <> episode_id ->
  make_episode goal_body imgs states actions episode_ids episode_id i0 i1
  = Raise AssertionError.
Proof.
  intros Hj Hnth Hne. unfold make_episode.
  rewrite (forallb_slice_false episode_ids episode_id i0 i1 j other Hj Hnth Hne).
  reflexivity.
Qed.

(** ** More about the store *)

Lemma block_of_range (goal_body : Body) (imgs : list Img)
    (states : list State) (actions : list Act) (episode_ids : list nat)
    (bound : nat) :
  bound <= length imgs -> bound <= length states ->
  bound <= length actions -> bound <= length episode_ids ->
  forall (rest : list nat) (episode_id itd i0 k lo hi : nat),
    episodes_ok episode_ids bound episode_id i0 rest = true ->
    nth_error
      (ranges_from itd
         (expected_blocks goal_body imgs states actions episode_ids i0 rest)) k
    = Some (lo, hi) ->
    exists a c,
      nth_error (expected_blocks goal_body imgs states actions episode_ids i0 rest) k
      = Some (transitions goal_body imgs states actions episode_ids a c)
      /\ a < c /\ c <= bound
      /\ forallb (Nat.eqb (episode_id + k)) (slice episode_ids a c) = true
      /\ lo + i0 + k = a + itd
      /\ hi = lo + (c - a - 1).
Proof.
  intros Hi Hs Ha He.
  induction rest as [|i1 rest IH]; intros episode_id itd i0 k lo hi Hok Hk.
  - destruct k; discriminate.
  - cbn [episodes_ok] in Hok.
    apply andb_prop in Hok as [Hok Hrest].
    apply andb_prop in Hok as [Hok Hids].
    apply andb_prop in Hok as [Hmin Hbound].
    apply Nat.leb_le in Hmin, Hbound.
    assert (Hlt : i0 < i1)
      by (unfold min_frames in Hmin; destruct (episode_id =? 0); lia).
    cbn [expected_blocks ranges_from] in Hk.
    rewrite length_transitions in Hk by lia.
    destruct k as [|k]; cbn [nth_error] in Hk.
    + injection Hk as <- <-. exists i0, i1. rewrite Nat.add_0_r.
      cbn [expected_blocks nth_error]. repeat split; (assumption || lia).
    + destruct (IH _ _ _ _ _ _ Hrest Hk)
        as (a & c & Hb & Hac & Hc & Hall & Hlo & Hhi).
      exists a, c. replace (episode_id + S k) with (S episode_id + k) by lia.
      cbn [expected_blocks nth_error]. repeat split; (assumption || lia).
Qed.

(** Where the row at a written cell comes from: the range of its episode,
    and the two raw frames it pairs. *)
Lemma written_row_source (goal_body : Body) (imgs : list Img)
    (states : list State) (actions : list Act) (episode_ids ends : list nat)
    (bound i : nat) (row : Row) :
  bound <= length imgs -> bound <= length states ->
  bound <= length actions -> bound <= length episode_ids ->
  episodes_ok episode_ids bound 0 0 ends = true ->
  nth_error
    (concat (expected_blocks goal_body imgs states actions episode_ids 0 ends)) i
  = Some row ->
  exists lo hi im st ac im' st',
    nth_error
      (ranges_from 0
         (expected_blocks goal_body imgs states actions episode_ids 0 ends))
      (episode row) = Some (lo, hi)
    /\ lo <= i < hi
    /\ nth_error imgs (i + episode row) = Some im
    /\ nth_error states (i + episode row) = Some st
    /\ nth_error actions (i + episode row) = Some ac
    /\ nth_error imgs (i + episode row + 1) = Some im'
    /\ nth_error states (i + episode row + 1) = Some st'
    /\ nth_error episode_ids (i + episode row) = Some (episode row)
    /\ row = mkRow im (agent_pos_of st) ac (episode row) (i - lo)
               im' (agent_pos_of st')
               (reward_of (state_coverage goal_body st'))
               (i + 1 =? hi)
               (success_of (state_coverage goal_body st')).
Proof.
  intros Hi Hs Ha He Hok Hrow.
  set (blocks := expected_blocks goal_body imgs states actions episode_ids 0 ends)
    in *.
  assert (Hlt : i < length (concat blocks)) by (apply nth_error_Some; congruence).
  destruct (ranges_cover blocks 0 i Hlt) as (k & lo & hi & Hk & Hin).
  cbn [Nat.add] in Hin.
  destruct (ranges_lookup blocks 0 k lo hi Hk) as (b & Hb & _ & _ & Hnth).
  destruct (block_of_range goal_body imgs states actions episode_ids bound
              Hi Hs Ha He ends 0 0 0 k lo hi Hok Hk)
    as (a & c & Hb' & Hac & Hc & Hids & Hlo & Hhi).
  fold blocks in Hb'. rewrite Hb in Hb'. injection Hb' as ->.
  cbn [Nat.add] in Hids.
  specialize (Hnth (i - lo)).
  rewrite length_transitions in Hnth by lia.
  specialize (Hnth ltac:(lia)).
  rewrite Nat.sub_0_r in Hnth. replace (lo + (i - lo)) with i in Hnth by lia.
  destruct (transitions_pointwise goal_body imgs states actions episode_ids
              k a c (i - lo) ltac:(lia) ltac:(lia) ltac:(lia) ltac:(lia) Hids
              ltac:(lia))
    as (im & st & ac & im' & st' & Him & Hst & Hac' & Him' & Hst' & Hj).
  rewrite Hrow, Hj in Hnth. injection Hnth as ->.
  cbn [episode].
  assert (Hid : nth_error episode_ids (a + (i - lo)) = Some k).
  { destruct (nth_error episode_ids (a + (i - lo))) as [e|] eqn:Hnth;
      [| apply nth_error_None in Hnth; lia].
    f_equal. symmetry. apply Nat.eqb_eq.
    apply (forallb_nth_error _ (slice episode_ids a c) (i - lo) e Hids).
    rewrite nth_error_slice.
    destruct (Nat.ltb_spec (i - lo) (c - a)); [exact Hnth | lia]. }
  replace (a + (i - lo)) with (i + k) in * by lia.
  replace (a + (i - lo + 1)) with (i + k + 1) in * by lia.
  exists lo, hi, im, st, ac, im', st'.
  repeat split; try assumption; try lia.
  f_equal.
  destruct (Nat.eqb_spec (i - lo + 1) (c - a - 1)), (Nat.eqb_spec (i + 1) hi);
    (reflexivity || (exfalso; lia)).
Qed.

(** X6. Row [i] of the store, a record of episode [k], pairs the raw frames
    [i + k] and [i + k + 1] of the capture: one frame is dropped at the end
    of each earlier episode, so a row lies [k] places before its frame. Its
    image, agent position, action and episode index are those of raw frame
    [i + k], and its next image, next agent position, reward and success
    those of raw frame [i + k + 1]. *)
Theorem store_row_is_raw_frame (store_path : Path) (dataset_dict : ReplayBuffer) :
  well_formed dataset_dict = true ->
  (area (goal_shape the_goal_body) =? 0)%float = false ->
  exists st cells,
    preproc_loop store_path dataset_dict = (st, None)
    /\ td_data st = Some cells
    /\ forall i row, nth_error cells i = Some (Some row) ->
         let f := i + episode row in
         nth_error (map rearrange (data_img dataset_dict)) f
         = Some (observation_image row)
         /\ nth_error (map agent_pos_of (data_state dataset_dict)) f
            = Some (observation_state row)
         /\ nth_error (data_action dataset_dict) f = Some (action row)
         /\ nth_error (get_episode_idxs dataset_dict) f = Some (episode row)
         /\ nth_error (map rearrange (data_img dataset_dict)) (f + 1)
            = Some (next_observation_image row)
         /\ nth_error (map agent_pos_of (data_state dataset_dict)) (f + 1)
            = Some (next_observation_state row)
         /\ nth_error
              (map (fun s => reward_of (state_coverage the_goal_body s))
                 (data_state dataset_dict)) (f + 1)
            = Some (next_reward row)
         /\ nth_error
              (map (fun s => success_of (state_coverage the_goal_body s))
                 (data_state dataset_dict)) (f + 1)
            = Some (next_success row).
Proof.
  intros Hwf Hgoal.
  destruct (well_formed_inv dataset_dict Hwf) as (_ & Hi & Hs & He & _ & Hok).
  eexists. eexists.
  split; [apply (preproc_loop_ok store_path dataset_dict Hwf Hgoal) |].
  split; [reflexivity |].
  intros i row Hcell f.
  apply nth_error_cells_of in Hcell as [_ Hrow].
  destruct (written_row_source the_goal_body
              (map rearrange (data_img dataset_dict)) (data_state dataset_dict)
              (data_action dataset_dict) (get_episode_idxs dataset_dict)
              (meta_episode_ends dataset_dict)
              (length (data_action dataset_dict)) i row
              ltac:(lia) ltac:(lia) ltac:(lia) ltac:(lia) Hok Hrow)
    as (lo & hi & im & st & ac & im' & st' & _ & _ & Him & Hst & Hac & Him'
        & Hst' & Hid & Heq).
  fold f in Him, Hst, Hac, Him', Hst', Hid.
  rewrite !nth_error_map in *. rewrite Hst, Hst', Him, Him', Hac, Hid.
  rewrite Heq. cbn. repeat split.
Qed.

(** X7. In the store the frame ids of an episode count up from 0: the
    record at cell [i] has as frame id its distance [i - lo] from the first
    cell [lo] of the range its episode was written to. *)
Theorem frame_ids_count_from_zero (store_path : Path)
    (dataset_dict : ReplayBuffer) :
  well_formed dataset_dict = true ->
  (area (goal_shape the_goal_body) =? 0)%float = false ->
  exists st cells,
    preproc_loop store_path dataset_dict = (st, None)
    /\ td_data st = Some cells
    /\ forall i row, nth_error cells i = Some (Some row) ->
         exists lo hi,
           nth_error (writes_of (trace st)) (episode row) = Some (lo, hi)
           /\ lo <= i < hi
           /\ frame_id row = i - lo.
Proof.
  intros Hwf Hgoal.
  destruct (well_formed_inv dataset_dict Hwf) as (_ & Hi & Hs & He & _ & Hok).
  eexists. eexists.
  split; [apply (preproc_loop_ok store_path dataset_dict Hwf Hgoal) |].
  split; [reflexivity |].
  intros i row Hcell. cbn [trace].
  apply nth_error_cells_of in Hcell as [_ Hrow].
  rewrite (writes_expected store_path _ the_goal_body
             (map rearrange (data_img dataset_dict)) (data_state dataset_dict)
             (data_action dataset_dict) (get_episode_idxs dataset_dict)
             (length (data_action dataset_dict)))
    by (assumption || lia).
  destruct (written_row_source the_goal_body
              (map rearrange (data_img dataset_dict)) (data_state dataset_dict)
              (data_action dataset_dict) (get_episode_idxs dataset_dict)
              (meta_episode_ends dataset_dict)
              (length (data_action dataset_dict)) i row
              ltac:(lia) ltac:(lia) ltac:(lia) ltac:(lia) Hok Hrow)
    as (lo & hi & im & st & ac & im' & st' & Hk & Hin & _ & _ & _ & _ & _ & _ & Heq).
  exists lo, hi. split; [exact Hk |]. split; [exact Hin |].
  rewrite Heq. reflexivity.
Qed.
(** ** The events of a build *)

Lemma firstn_add_skipn {A : Type} (m n : nat) (y : list A) :
  firstn m y ++ firstn n (skipn m y) = firstn (m + n) y.
Proof.
  revert y. induction m as [|m IH]; intros [|a y]; cbn;
    try reflexivity.
  - destruct n; reflexivity.
  - rewrite IH. reflexivity.
Qed.

Lemma slice_app {A : Type} (x : list A) (a b c : nat) :
  a <= b -> b <= c -> slice x a b ++ slice x b c = slice x a c.
Proof.
  intros Hab Hbc. unfold slice.
  replace (skipn b x) with (skipn (b - a) (skipn a x))
    by (rewrite skipn_skipn; f_equal; lia).
  rewrite firstn_add_skipn. f_equal. lia.
Qed.

Lemma slice_all {A : Type} (x : list A) : slice x 0 (length x) = x.
Proof. unfold slice. rewrite Nat.sub_0_r. cbn [skipn]. apply firstn_all. Qed.

Lemma labels_of_app (tr1 tr2 : list Event) :
  labels_of (tr1 ++ tr2) = labels_of tr1 ++ labels_of tr2.
Proof. apply flat_map_app. Qed.

Lemma labels_of_label_events (state : list State) :
  labels_of (map label_event state) = map block_pose_of state.
Proof.
  induction state as [|s state IH]; [reflexivity|].
  cbn [map labels_of flat_map label_event app]. f_equal. exact IH.
Qed.

Lemma labels_of_step (store_path : Path) (total_frames : nat)
    (states : list State) (episode_id itd i0 i1 : nat) :
  labels_of (step_trace store_path total_frames states episode_id itd i0 i1)
  = map block_pose_of (slice states i0 i1).
Proof.
  unfold step_trace. rewrite !labels_of_app, labels_of_label_events.
  destruct (episode_id =? 0); cbn; rewrite app_nil_r; reflexivity.
Qed.

Lemma allocations_of_app (tr1 tr2 : list Event) :
  allocations_of (tr1 ++ tr2) = allocations_of tr1 ++ allocations_of tr2.
Proof. apply flat_map_app. Qed.

Lemma allocations_of_label_events (state : list State) :
  allocations_of (map label_event state) = [].
Proof. induction state as [|s state IH]; [reflexivity | exact IH]. Qed.

Lemma allocations_of_step (store_path : Path) (total_frames : nat)
    (states : list State) (episode_id itd i0 i1 : nat) :
  allocations_of (step_trace store_path total_frames states episode_id itd i0 i1)
  = if episode_id =? 0 then [(store_path, total_frames)] else [].
Proof.
  unfold step_trace. rewrite !allocations_of_app, allocations_of_label_events.
  destruct (episode_id =? 0); reflexivity.
Qed.

Lemma allocations_of_later_steps (store_path : Path) (total_frames : nat)
    (states : list State) (rest : list nat) (episode_id itd i0 : nat) :
  allocations_of
    (expected_trace store_path total_frames states (S episode_id) itd i0 rest)
  = [].
Proof.
  revert episode_id itd i0. induction rest as [|i1 rest IH];
    intros episode_id itd i0; [reflexivity|].
  cbn [expected_trace].
  rewrite allocations_of_app, allocations_of_step, IH. reflexivity.
Qed.

Lemma labels_of_expected_trace (store_path : Path) (total_frames : nat)
    (goal_body : Body) (imgs : list Img) (states : list State)
    (actions : list Act) (episode_ids : list nat) (bound : nat) :
  bound <= length imgs -> bound <= length states ->
  bound <= length actions -> bound <= length episode_ids ->
  forall (rest : list nat) (episode_id itd i0 : nat),
    episodes_ok episode_ids bound episode_id i0 rest = true ->
    labels_of (expected_trace store_path total_frames states episode_id itd i0 rest)
    = map block_pose_of (slice states i0 (last rest i0)).
Proof.
  intros Hi Hs Ha He.
  induction rest as [|i1 rest IH]; intros episode_id itd i0 Hok.
  - cbn [expected_trace last labels_of flat_map]. unfold slice.
    rewrite Nat.sub_diag. reflexivity.
  - pose proof (written_total goal_body imgs states actions episode_ids bound
                  Hi Hs Ha He (i1 :: rest) episode_id i0 Hok) as Htotal.
    cbn [episodes_ok] in Hok.
    apply andb_prop in Hok as [Hok Hrest].
    apply andb_prop in Hok as [Hok _].
    apply andb_prop in Hok as [Hmin _]. apply Nat.leb_le in Hmin.
    assert (Hlt : i0 < i1)
      by (unfold min_frames in Hmin; destruct (episode_id =? 0); lia).
    pose proof (written_total goal_body imgs states actions episode_ids bound
                  Hi Hs Ha He rest (S episode_id) i1 Hrest) as Hrest_total.
    cbn [expected_trace].
    rewrite labels_of_app, labels_of_step, (IH _ _ _ Hrest), <- map_app.
    rewrite last_cons, slice_app by lia. reflexivity.
Qed.

(** X8. A build labels every raw frame of the capture exactly once, in the
    order of the frames: the geometry is evaluated at the block pose of
    frame 0, then of frame 1, and so on to the last frame, the first frame
    of each episode included, although its label is not stored. *)
Theorem every_frame_labelled_once (store_path : Path)
    (dataset_dict : ReplayBuffer) :
  well_formed dataset_dict = true ->
  (area (goal_shape the_goal_body) =? 0)%float = false ->
  exists st,
    preproc_loop store_path dataset_dict = (st, None)
    /\ labels_of (trace st) = map block_pose_of (data_state dataset_dict).
Proof.
  intros Hwf Hgoal.
  destruct (well_formed_inv dataset_dict Hwf) as (_ & Hi & Hs & He & Hlast & Hok).
  eexists.
  split; [apply (preproc_loop_ok store_path dataset_dict Hwf Hgoal) |].
  cbn [trace].
  rewrite (labels_of_expected_trace store_path _ the_goal_body
             (map rearrange (data_img dataset_dict)) (data_state dataset_dict)
             (data_action dataset_dict) (get_episode_idxs dataset_dict)
             (length (data_action dataset_dict))
             ltac:(lia) ltac:(lia) ltac:(lia) ltac:(lia) _ 0 0 0 Hok).
  rewrite Hlast, <- Hs, slice_all. reflexivity.
Qed.

(** X9. A build allocates the store exactly once, at the path of the store
    and with one cell per raw frame of the capture. *)
Theorem store_allocated_once (store_path : Path) (dataset_dict : ReplayBuffer) :
  well_formed dataset_dict = true ->
  (area (goal_shape the_goal_body) =? 0)%float = false ->
  exists st,
    preproc_loop store_path dataset_dict = (st, None)
    /\ allocations_of (trace st)
       = [(store_path, length (data_action dataset_dict))].
Proof.
  intros Hwf Hgoal.
  destruct (well_formed_inv dataset_dict Hwf) as (Hne & _).
  eexists.
  split; [apply (preproc_loop_ok store_path dataset_dict Hwf Hgoal) |].
  cbn [trace].
  destruct (meta_episode_ends dataset_dict) as [|i1 rest]; [congruence|].
  cbn [expected_trace].
  rewrite allocations_of_app, allocations_of_step, allocations_of_later_steps.
  reflexivity.
Qed.
(** ** More about the constructor and the build *)

Lemma is_prefix_refl (p : Path) : is_prefix p p = true.
Proof.
  unfold is_prefix. rewrite firstn_all.
  destruct (path_eq_dec p p); [reflexivity | congruence].
Qed.

Lemma lookup_head {A : Type} (p : Path) (a : A) (l : list (Path * A)) :
  lookup p ((p, a) :: l) = Some a.
Proof.
  unfold lookup. cbn [find fst].
  destruct (path_eq_dec p p); [reflexivity | congruence].
Qed.

Lemma is_dir_makedirs (p : Path) (w : World) :
  is_dir p (makedirs p w) = true.
Proof.
  unfold makedirs. destruct (is_dir p w) eqn:Hdir; [exact Hdir|].
  unfold is_dir. cbn [dirs existsb]. rewrite is_prefix_refl. reflexivity.
Qed.

Lemma is_dir_makedirs_mono (p q : Path) (w : World) :
  is_dir p w = true -> is_dir p (makedirs q w) = true.
Proof.
  intros Hdir. unfold makedirs. destruct (is_dir q w); [exact Hdir|].
  unfold is_dir in *. cbn [dirs existsb]. rewrite Hdir. apply orb_true_r.
Qed.

(** What a build that has allocated the store leaves on disk. *)
Lemma persist_allocated (store_path : Path) (st : LoopState) (w : World)
    (td : Cells) :
  td_data st = Some td ->
  is_dir store_path (persist store_path st w) = true
  /\ load_memmap store_path (persist store_path st w) = Ok (mkTD td true).
Proof.
  intros Htd. unfold persist. rewrite Htd. split.
  - exact (is_dir_makedirs store_path w).
  - unfold load_memmap. cbn [memmaps]. rewrite lookup_head. reflexivity.
Qed.

(** X10. A first episode of a single frame stops the build: the frame is
    labelled, the episode has no record for [episode[0]] to take the shape
    of the store from, and the build fails with [IndexError] before the
    store is allocated; no directory is made and no store is persisted. *)
Theorem single_frame_first_episode_aborts (root_dir : Path) (name : string)
    (w : World) (dataset_dict : ReplayBuffer) (rest : list nat) (s : State) :
  is_dir ((root_dir ++ ["raw"%string]) ++ PUSHT_ZARR) w = true ->
  copy_from_path ((root_dir ++ ["raw"%string]) ++ PUSHT_ZARR) w = Ok dataset_dict ->
  meta_episode_ends dataset_dict = 1 :: rest ->
  1 <= length (data_img dataset_dict) ->
  1 <= length (data_action dataset_dict) ->
  nth_error (data_state dataset_dict) 0 = Some s ->
  nth_error (get_episode_idxs dataset_dict) 0 = Some 0 ->
  (area (goal_shape the_goal_body) =? 0)%float = false ->
  fst (_download_and_preproc root_dir name w) = Raise IndexError
  /\ dirs (snd (_download_and_preproc root_dir name w)) = dirs w
  /\ memmaps (snd (_download_and_preproc root_dir name w)) = memmaps w.
Proof.
  intros Hdir Hcopy Hends Hi Ha Hs Hid Hgoal.
  assert (Hloop :
    exists evs,
      preproc_loop (data_path_root root_dir name) dataset_dict
      = (mkLoop 0 0 None evs, Some IndexError)).
  { unfold preproc_loop. rewrite frame_counts_nonempty. cbn [negb py_assert].
    rewrite Hends. cbn [length range seq for_range].
    unfold episode_body. cbn [getitem nth_error bind idx0 idxtd td_data trace].
    change (get_goal_pose_body goal_pos_angle) with the_goal_body.
    rewrite make_episode_ok.
    - cbn [bind Nat.eqb].
      rewrite (length_zero_nil (transitions _ _ _ _ _ 0 1)).
      + cbn [getitem nth_error bind]. eexists. reflexivity.
      + unfold transitions. rewrite length_map, length_combine.
        unfold drop_last. rewrite removelast_firstn_len, length_firstn.
        assert (Hlen : length (slice (map rearrange (data_img dataset_dict)) 0 1) <= 1)
          by (unfold slice; rewrite length_firstn; lia).
        lia.
    - exact Hgoal.
    - lia.
    - rewrite length_map. exact Hi.
    - apply Nat.le_succ_l, nth_error_Some. congruence.
    - exact Ha.
    - apply Nat.le_succ_l, nth_error_Some. congruence.
    - destruct (get_episode_idxs dataset_dict) as [|e ids]; [discriminate|].
      cbn in Hid. injection Hid as ->. reflexivity. }
  destruct Hloop as (evs & Hloop).
  unfold _download_and_preproc. rewrite Hdir, Hcopy, Hloop.
  cbn. repeat split.
Qed.
(** X11. A build that fails after the store was allocated leaves the store
    behind. When the first episode is in order and a frame of the second is
    recorded under a wrong episode index, the build fails with
    [AssertionError], yet the directory of the store exists afterwards and
    holds the records of the first episode followed by cells never
    written: [_is_downloaded] takes it for a finished store, and
    [load_memmap] opens it. *)
Theorem failed_build_leaves_partial_store (root_dir : Path) (name : string)
    (w : World) (dataset_dict : ReplayBuffer) (e1 e2 : nat) (tail : list nat)
    (j other : nat) :
  is_dir ((root_dir ++ ["raw"%string]) ++ PUSHT_ZARR) w = true ->
  copy_from_path ((root_dir ++ ["raw"%string]) ++ PUSHT_ZARR) w = Ok dataset_dict ->
  meta_episode_ends dataset_dict = e1 :: e2 :: tail ->
  2 <= e1 ->
  e1 <= length (data_img dataset_dict) ->
  e1 <= length (data_state dataset_dict) ->
  e1 <= length (data_action dataset_dict) ->
  e1 <= length (get_episode_idxs dataset_dict) ->
  forallb (Nat.eqb 0) (slice (get_episode_idxs dataset_dict) 0 e1) = true ->
  j < e2 - e1 ->
  nth_error (get_episode_idxs dataset_dict) (e1 + j) = Some other ->
  other <> 1 ->
  (area (goal_shape the_goal_body) =? 0)%float = false ->
  fst (_download_and_preproc root_dir name w) = Raise AssertionError
  /\ _is_downloaded root_dir name (snd (_download_and_preproc root_dir name w))
     = true
  /\ exists cells,
       load_memmap (data_path_root root_dir name)
         (snd (_download_and_preproc root_dir name w)) = Ok (mkTD cells true)
       /\ length cells = length (data_action dataset_dict)
       /\ (forall i, i < e1 - 1 ->
             exists row, nth_error cells i = Some (Some row) /\ episode row = 0)
       /\ (forall i, e1 - 1 <= i < length (data_action dataset_dict) ->
             nth_error cells i = Some None).
Proof.
  intros Hdir Hcopy Hends He1 Hi Hs Ha He Hids Hj Hother Hne Hgoal.
  set (n := length (data_action dataset_dict)) in *.
  set (imgs := map rearrange (data_img dataset_dict)).
  set (states := data_state dataset_dict) in *.
  set (actions := data_action dataset_dict) in *.
  set (ids := get_episode_idxs dataset_dict) in *.
  set (rows := transitions the_goal_body imgs states actions ids 0 e1).
  assert (Hi' : e1 <= length imgs) by (unfold imgs; rewrite length_map; exact Hi).
  assert (Hrows : length rows = e1 - 1).
  { unfold rows. rewrite length_transitions by assumption. lia. }
  assert (Hloop :
    exists st, preproc_loop (data_path_root root_dir name) dataset_dict
               = (st, Some AssertionError)
               /\ td_data st = Some (cells_of n rows)).
  { unfold preproc_loop. rewrite frame_counts_nonempty. cbn [negb py_assert].
    rewrite Hends. cbn [length range seq for_range].
    change (get_goal_pose_body goal_pos_angle) with the_goal_body.
    fold n imgs states actions ids.
    pose proof (episode_body_ok (data_path_root root_dir name) [] (e2 :: tail) n
                  the_goal_body imgs states actions ids 0 e1 [] [] Hgoal)
      as Hstep.
    cbn [length app Nat.eqb Nat.add] in Hstep. unfold n in Hstep |- *.
    rewrite Hstep by (assumption || reflexivity || (unfold min_frames; cbn; lia)).
    unfold episode_body at 1. cbn [getitem nth_error bind idx0 idxtd td_data trace].
    unfold make_episode.
    rewrite (forallb_slice_false ids 1 e1 e2 j other Hj Hother Hne).
    cbn [py_assert bind]. eexists. split; reflexivity. }
  destruct Hloop as (st & Hloop & Htd).
  destruct (persist_allocated (data_path_root root_dir name) st w _ Htd)
    as [Hexists Hload].
  assert (Hrun : _download_and_preproc root_dir name w
                 = (Raise AssertionError, persist (data_path_root root_dir name) st w)).
  { unfold _download_and_preproc. rewrite Hdir, Hcopy, Hloop. reflexivity. }
  rewrite Hrun. cbn [fst snd].
  split; [reflexivity |]. split; [exact Hexists |].
  exists (cells_of n rows). split; [exact Hload |].
  split; [apply length_cells_of; lia |].
  split.
  - intros i Hlt.
    destruct (nth_error_cells_written n rows i ltac:(lia)) as (row & Hrow & Hcell).
    exists row. split; [exact Hcell |].
    destruct (transitions_pointwise the_goal_body imgs states actions ids 0 0 e1 i
                Hi' Hs Ha He Hids ltac:(lia))
      as (im & s0 & ac & im' & s1 & _ & _ & _ & _ & _ & Hnth).
    fold rows in Hnth. rewrite Hnth in Hrow. injection Hrow as <-. reflexivity.
  - intros i Hin. apply nth_error_cells_slack. lia.
Qed.

Lemma downloads_of_app (tr1 tr2 : list Event) :
  downloads_of (tr1 ++ tr2) = downloads_of tr1 ++ downloads_of tr2.
Proof. apply flat_map_app. Qed.

Lemma label_loop_downloads (goal_body : Body) (block_pos : list Vec2)
    (block_angle : list float) (frames : list nat) (lab lab' : Labels) :
  for_each (label_body goal_body block_pos block_angle) frames lab = Ok lab' ->
  downloads_of (calls lab') = downloads_of (calls lab).
Proof.
  revert lab. induction frames as [|i frames IH]; intros lab Hrun.
  - injection Hrun as <-. reflexivity.
  - cbn [for_each] in Hrun.
    destruct (label_body goal_body block_pos block_angle i lab) as [lab1|]
      eqn:Hbody; [| discriminate].
    rewrite (IH _ Hrun). unfold label_body in Hbody.
    destruct (getitem block_pos i); [| discriminate].
    destruct (getitem block_angle i); [| discriminate].
    cbn [bind] in Hbody.
    destruct (frame_coverage goal_body a a0); [| discriminate].
    cbn [bind] in Hbody.
    destruct (setitem (reward lab) i _); [| discriminate].
    cbn [bind] in Hbody.
    destruct (setitem (success lab) i _); [| discriminate].
    injection Hbody as <-. cbn [calls].
    rewrite downloads_of_app. cbn. apply app_nil_r.
Qed.

Lemma make_episode_downloads (goal_body : Body) (imgs : list Img)
    (states : list State) (actions : list Act) (episode_ids : list nat)
    (episode_id i0 i1 : nat) (rows : list Row) (evs : list Event) :
  make_episode goal_body imgs states actions episode_ids episode_id i0 i1
  = Ok (rows, evs) ->
  downloads_of evs = [].
Proof.
  unfold make_episode. intros Hrun.
  destruct (py_assert _); [| discriminate]. cbn [bind] in Hrun.
  destruct (i1 <? i0); [discriminate |].
  unfold label_frames in Hrun.
  destruct (for_each _ _ _) as [lab|] eqn:Hlab; [| discriminate].
  cbn [bind] in Hrun.
  destruct (set_last _ _); [| discriminate]. cbn [bind] in Hrun.
  destruct (TensorDict _ _ _ _ _ _ _ _ _ _ _); [| discriminate].
  injection Hrun as _ <-.
  apply label_loop_downloads in Hlab. exact Hlab.
Qed.

Lemma episode_body_downloads (store_path : Path) (episode_ends : list nat)
    (total_frames : nat) (goal_body : Body) (imgs : list Img)
    (states : list State) (actions : list Act) (episode_ids : list nat)
    (episode_id : nat) (st st' : LoopState) (err : option PyError) :
  episode_body store_path episode_ends total_frames goal_body imgs states
    actions episode_ids episode_id st = (st', err) ->
  downloads_of (trace st') = downloads_of (trace st).
Proof.
  unfold episode_body. intros Hrun.
  destruct (getitem episode_ends episode_id) as [i1|]; cbn [bind] in Hrun;
    [| injection Hrun as <- _; reflexivity].
  destruct (make_episode _ _ _ _ _ _ _ _) as [[rows evs]|] eqn:Hep;
    cbn [bind] in Hrun; [| injection Hrun as <- _; reflexivity].
  apply make_episode_downloads in Hep.
  assert (Hst1 : downloads_of (trace st ++ evs) = downloads_of (trace st))
    by (rewrite downloads_of_app, Hep; apply app_nil_r).
  destruct (if episode_id =? 0 then _ else _) as [st2|] eqn:Halloc;
    [| injection Hrun as <- _; exact Hst1].
  assert (Hst2 : downloads_of (trace st2) = downloads_of (trace st)).
  { destruct (episode_id =? 0).
    - destruct (getitem rows 0); [| discriminate]. cbn [bind] in Halloc.
      injection Halloc as <-. cbn [trace].
      rewrite downloads_of_app, Hst1. apply app_nil_r.
    - injection Halloc as <-. exact Hst1. }
  match type of Hrun with
  | match ?write with _ => _ end = _ => destruct write as [td'|]
  end; injection Hrun as <- _; cbn [trace];
    [rewrite downloads_of_app, Hst2; apply app_nil_r | exact Hst2].
Qed.

Lemma episode_loop_downloads (store_path : Path) (episode_ends : list nat)
    (total_frames : nat) (goal_body : Body) (imgs : list Img)
    (states : list State) (actions : list Act) (episode_ids : list nat)
    (episodes : list nat) (st st' : LoopState) (err : option PyError) :
  for_range
    (episode_body store_path episode_ends total_frames goal_body imgs states
       actions episode_ids) episodes st = (st', err) ->
  downloads_of (trace st') = downloads_of (trace st).
Proof.
  revert st. induction episodes as [|k episodes IH]; intros st Hrun.
  - injection Hrun as <- _. reflexivity.
  - cbn [for_range] in Hrun.
    destruct (episode_body _ _ _ _ _ _ _ _ _ _) as [st1 [e|]] eqn:Hbody.
    + injection Hrun as <- _. exact (episode_body_downloads _ _ _ _ _ _ _ _ _ _ _ _ Hbody).
    + rewrite (IH _ Hrun). exact (episode_body_downloads _ _ _ _ _ _ _ _ _ _ _ _ Hbody).
Qed.

(** X13. When the raw capture is on disk, a build downloads nothing,
    whatever the capture holds and however the build ends: the downloads
    in the log of the world are those that were there before. *)
Theorem no_download_when_capture_is_on_disk (root_dir : Path) (name : string)
    (w : World) :
  is_dir ((root_dir ++ ["raw"%string]) ++ PUSHT_ZARR) w = true ->
  downloads_of (log (snd (_download_and_preproc root_dir name w)))
  = downloads_of (log w).
Proof.
  intros Hdir. unfold _download_and_preproc. rewrite Hdir.
  destruct (copy_from_path _ w) as [dataset_dict|]; [| reflexivity].
  destruct (preproc_loop (data_path_root root_dir name) dataset_dict)
    as [st err] eqn:Hloop.
  assert (Hnone : downloads_of (trace st) = []).
  { unfold preproc_loop in Hloop.
    destruct (py_assert _); [| injection Hloop as <- _; reflexivity].
    exact (episode_loop_downloads _ _ _ _ _ _ _ _ _ _ _ _ Hloop). }
  assert (Hlog : log (persist (data_path_root root_dir name) st w)
                 = log w ++ trace st)
    by (unfold persist; destruct (td_data st); reflexivity).
  destruct err as [e|]; [| destruct (td_data st)]; cbn [snd];
    rewrite Hlog, downloads_of_app, Hnone; apply app_nil_r.
Qed.

(** What the constructor does when the store is there. *)
Lemma init_opens_existing (args : InitArgs) (w : World) :
  arg_streaming args = false ->
  is_not_None (arg_num_slices args) && is_not_None (arg_slice_len args) = false ->
  arg_split_trajs args = false ->
  is_dir (data_path_root (root_of args) (arg_dataset_id args)) w = true ->
  __init__ args w
  = (match load_memmap (data_path_root (root_of args) (arg_dataset_id args)) w with
     | Ok td => Ok (mkReplay (arg_dataset_id args) (root_of args) (mkStorage td))
     | Raise e => Raise e
     end, w).
Proof.
  intros Hst Hsl Hsp Hdir. unfold __init__, root_of in *.
  rewrite Hst, Hsl, Hsp.
  destruct (arg_root args) as [r|].
  - unfold _is_downloaded. rewrite Hdir. cbn [negb].
    destruct (load_memmap _ w); reflexivity.
  - rewrite (makedirs_existing pusht_root_dir w)
      by (apply (is_dir_parent _ [arg_dataset_id args]); exact Hdir).
    unfold _is_downloaded. rewrite Hdir. cbn [negb].
    destruct (load_memmap _ w); reflexivity.
Qed.

Lemma download_and_preproc_ok (root_dir : Path) (name : string) (w w1 : World)
    (s : TensorStorage) :
  _download_and_preproc root_dir name w = (Ok s, w1) ->
  exists td,
    s = mkStorage (mkTD td true)
    /\ is_dir (data_path_root root_dir name) w1 = true
    /\ load_memmap (data_path_root root_dir name) w1 = Ok (mkTD td true).
Proof.
  unfold _download_and_preproc. intros Hrun.
  destruct (if is_dir _ w then _ else _) as [[w'|e] w0]; [| discriminate].
  destruct (copy_from_path _ w') as [dataset_dict|]; [| discriminate].
  destruct (preproc_loop _ dataset_dict) as [st err].
  destruct err as [e|]; [discriminate |].
  destruct (td_data st) as [td|] eqn:Htd; [| discriminate].
  injection Hrun as <- <-. exists td. split; [reflexivity |].
  exact (persist_allocated _ st w' td Htd).
Qed.

(** X14. Construction is idempotent from the first success on: in the world
    a successful construction leaves, whether it built the store or found
    it, the same call returns the same dataset and changes nothing. *)
Theorem construction_then_reopen (args : InitArgs) (w w1 : World)
    (self : PushtExperienceReplay) :
  __init__ args w = (Ok self, w1) ->
  __init__ args w1 = (Ok self, w1).
Proof.
  intros Hrun.
  assert (Hguards : arg_streaming args = false
                    /\ is_not_None (arg_num_slices args)
                       && is_not_None (arg_slice_len args) = false
                    /\ arg_split_trajs args = false).
  { unfold __init__ in Hrun.
    destruct (arg_streaming args); [discriminate |].
    destruct (is_not_None (arg_num_slices args) && is_not_None (arg_slice_len args));
      [discriminate |].
    destruct (arg_split_trajs args); [discriminate |]. repeat split. }
  destruct Hguards as (Hst & Hsl & Hsp).
  assert (Hstore :
    is_dir (data_path_root (root_of args) (arg_dataset_id args)) w1 = true
    /\ exists td,
         load_memmap (data_path_root (root_of args) (arg_dataset_id args)) w1
         = Ok td
         /\ self = mkReplay (arg_dataset_id args) (root_of args) (mkStorage td)).
  { unfold __init__ in Hrun. rewrite Hst, Hsl, Hsp in Hrun.
    unfold root_of.
    destruct (arg_root args) as [r|].
    - unfold _is_downloaded in Hrun.
      destruct (is_dir (data_path_root r (arg_dataset_id args)) w) eqn:Hdir;
        cbn [negb] in Hrun.
      + destruct (load_memmap _ w) as [td|] eqn:Hload; [| discriminate].
        injection Hrun as <- <-. split; [exact Hdir |].
        exists td. split; [exact Hload | reflexivity].
      + destruct (_download_and_preproc r (arg_dataset_id args) w)
          as [[s|e] w2] eqn:Hbuild; [| discriminate].
        injection Hrun as <- <-.
        destruct (download_and_preproc_ok _ _ _ _ _ Hbuild) as (td & -> & Hd & Hl).
        split; [exact Hd |]. exists (mkTD td true). split; [exact Hl | reflexivity].
    - unfold _is_downloaded in Hrun.
      destruct (is_dir (data_path_root pusht_root_dir (arg_dataset_id args))
                  (makedirs pusht_root_dir w)) eqn:Hdir; cbn [negb] in Hrun.
      + destruct (load_memmap _ (makedirs pusht_root_dir w)) as [td|] eqn:Hload;
          [| discriminate].
        injection Hrun as <- <-. split; [exact Hdir |].
        exists td. split; [exact Hload | reflexivity].
      + destruct (_download_and_preproc pusht_root_dir (arg_dataset_id args)
                    (makedirs pusht_root_dir w))
          as [[s|e] w2] eqn:Hbuild; [| discriminate].
        injection Hrun as <- <-.
        destruct (download_and_preproc_ok _ _ _ _ _ Hbuild) as (td & -> & Hd & Hl).
        split; [exact Hd |]. exists (mkTD td true). split; [exact Hl | reflexivity]. }
  destruct Hstore as (Hdir & td & Hload & ->).
  rewrite (init_opens_existing args w1 Hst Hsl Hsp Hdir), Hload. reflexivity.
Qed.
Lemma is_dir_child_after_makedirs (p : Path) (x : string) (w : World) :
  is_dir (p ++ [x]) (makedirs p w) = is_dir (p ++ [x]) w.
Proof.
  unfold makedirs. destruct (is_dir p w); [reflexivity |].
  unfold is_dir. cbn [dirs existsb].
  replace (is_prefix (p ++ [x]) p) with false; [reflexivity |].
  unfold is_prefix.
  destruct (path_eq_dec (p ++ [x]) (firstn (length (p ++ [x])) p)) as [Heq|];
    [| reflexivity].
  exfalso. apply (f_equal (@length string)) in Heq.
  rewrite length_firstn, !length_app in Heq. cbn [length] in Heq. lia.
Qed.

Lemma copy_from_path_makedirs (zarr_path p : Path) (w : World) :
  copy_from_path zarr_path (makedirs p w) = copy_from_path zarr_path w.
Proof. unfold copy_from_path, makedirs. destruct (is_dir p w); reflexivity. Qed.

(** The build on a well-formed capture that is on disk. *)
Lemma build_from_capture (root_dir : Path) (name : string) (w : World)
    (dataset_dict : ReplayBuffer) :
  is_dir ((root_dir ++ ["raw"%string]) ++ PUSHT_ZARR) w = true ->
  copy_from_path ((root_dir ++ ["raw"%string]) ++ PUSHT_ZARR) w = Ok dataset_dict ->
  well_formed dataset_dict = true ->
  (area (goal_shape the_goal_body) =? 0)%float = false ->
  exists td w1,
    _download_and_preproc root_dir name w = (Ok (mkStorage (mkTD td true)), w1)
    /\ length td = length (data_action dataset_dict)
    /\ is_dir (data_path_root root_dir name) w1 = true
    /\ load_memmap (data_path_root root_dir name) w1 = Ok (mkTD td true).
Proof.
  intros Hdir Hcopy Hwf Hgoal.
  destruct (well_formed_inv dataset_dict Hwf) as (_ & Hi & Hs & He & Hlast & Hok).
  pose proof (written_total the_goal_body
                (map rearrange (data_img dataset_dict)) (data_state dataset_dict)
                (data_action dataset_dict) (get_episode_idxs dataset_dict)
                (length (data_action dataset_dict))
                ltac:(lia) ltac:(lia) ltac:(lia) ltac:(lia)
                (meta_episode_ends dataset_dict) 0 0 Hok) as Htotal.
  rewrite Hlast in Htotal.
  pose proof (preproc_loop_ok (data_path_root root_dir name) dataset_dict Hwf Hgoal)
    as Hloop.
  cbv zeta in Hloop.
  eexists. eexists. split.
  - unfold _download_and_preproc. rewrite Hdir, Hcopy, Hloop. reflexivity.
  - split; [apply length_cells_of; lia |].
    apply persist_allocated. reflexivity.
Qed.

(** X15. A first construction over a well-formed capture that is on disk
    succeeds, whether the root is given or the default one: it returns a
    locked store with one row per raw frame of the capture (the records
    written are fewer, one less per episode), and afterwards the store is
    on disk, where [_is_downloaded] finds it and [load_memmap] reads back
    the store that was returned. *)
Theorem fresh_build_succeeds (args : InitArgs) (w : World)
    (dataset_dict : ReplayBuffer) :
  arg_streaming args = false ->
  is_not_None (arg_num_slices args) && is_not_None (arg_slice_len args) = false ->
  arg_split_trajs args = false ->
  _is_downloaded (root_of args) (arg_dataset_id args) w = false ->
  is_dir ((root_of args ++ ["raw"%string]) ++ PUSHT_ZARR) w = true ->
  copy_from_path ((root_of args ++ ["raw"%string]) ++ PUSHT_ZARR) w
  = Ok dataset_dict ->
  well_formed dataset_dict = true ->
  (area (goal_shape the_goal_body) =? 0)%float = false ->
  exists self w1,
    __init__ args w = (Ok self, w1)
    /\ num_samples self = length (data_action dataset_dict)
    /\ td_locked (_storage (storage self)) = true
    /\ _is_downloaded (root_of args) (arg_dataset_id args) w1 = true
    /\ load_memmap (data_path_root (root_of args) (arg_dataset_id args)) w1
       = Ok (_storage (storage self)).
Proof.
  intros Hst Hsl Hsp Hstore Hdir Hcopy Hwf Hgoal.
  unfold __init__. rewrite Hst, Hsl, Hsp. unfold root_of in *.
  destruct (arg_root args) as [r|].
  - rewrite Hstore. cbn [negb].
    destruct (build_from_capture r (arg_dataset_id args) w dataset_dict
                Hdir Hcopy Hwf Hgoal) as (td & w1 & Hrun & Hlen & Hd & Hl).
    rewrite Hrun. eexists. eexists. split; [reflexivity |].
    cbn [num_samples storage storage_len _storage td_cells td_locked].
    repeat split; assumption.
  - unfold _is_downloaded, data_path_root in Hstore |- *.
    rewrite is_dir_child_after_makedirs, Hstore. cbn [negb].
    destruct (build_from_capture pusht_root_dir (arg_dataset_id args)
                (makedirs pusht_root_dir w) dataset_dict
                (is_dir_makedirs_mono _ _ _ Hdir)
                (eq_trans (copy_from_path_makedirs _ _ _) Hcopy) Hwf Hgoal)
      as (td & w1 & Hrun & Hlen & Hd & Hl).
    rewrite Hrun. eexists. eexists. split; [reflexivity |].
    cbn [num_samples storage storage_len _storage td_cells td_locked].
    repeat split; assumption.
Qed.


End Facts.

(** * Concrete runs *)


(** The first episode of the sample capture: five frames, four records. *)
Lemma episode_pairs_consecutive_frames_witness :
  exists rows evs,
    @make_episode sample_tensors sample_geometry the_goal_body
      (data_img sample_capture) (data_state sample_capture)
      (data_action sample_capture) (get_episode_idxs sample_capture) 0 0 5
    = Ok (rows, evs)
    /\ length rows = 4.
Proof.
  destruct (@episode_pairs_consecutive_frames sample_tensors sample_geometry
              the_goal_body (data_img sample_capture) (data_state sample_capture)
              (data_action sample_capture) (get_episode_idxs sample_capture)
              0 0 5)
    as (rows & evs & Hrun & Hlen & _).
  - reflexivity.
  - cbn. lia.
  - cbn. lia.
  - cbn. lia.
  - cbn. lia.
  - cbn. lia.
  - reflexivity.
  - exists rows, evs. split; [exact Hrun | exact Hlen].
Defined.

(** Frame 2 of the sample capture has the block on the goal: reward 1,
    success. *)
Lemma frame_labels_from_coverage_witness :
  exists lab,
    @label_frames sample_tensors sample_geometry the_goal_body
      (map block_pos_of (data_state sample_capture))
      (map block_angle_of (data_state sample_capture)) 10
      (mkLabels (repeat 0%float 10) (repeat false 10) [])
    = Ok lab
    /\ nth_error (reward lab) 2 = Some 1%float
    /\ nth_error (success lab) 2 = Some true.
Proof.
  destruct (@frame_labels_from_coverage sample_tensors sample_geometry
              the_goal_body (data_state sample_capture))
    as (lab & Hrun & Hall).
  - reflexivity.
  - intros x y Hxy. exact Hxy.
  - reflexivity.
  - reflexivity.
  - exists lab. split; [exact Hrun |].
    destruct (Hall 2 (on_goal 2) eq_refl) as (Hr & Hs & _).
    split; [exact Hr | exact Hs].
Defined.

(** The store built from the sample capture. *)
Lemma done_marks_last_record_of_episode_witness :
  exists st cells,
    @preproc_loop sample_tensors sample_geometry
      (data_path_root sample_root "pusht") sample_capture = (st, None)
    /\ td_data st = Some cells.
Proof.
  destruct (@done_marks_last_record_of_episode sample_tensors sample_geometry
              (data_path_root sample_root "pusht") sample_capture)
    as (st & cells & Hrun & Htd & _).
  - reflexivity.
  - reflexivity.
  - exists st, cells. split; [exact Hrun | exact Htd].
Defined.

Lemma store_layout_witness :
  exists st cells,
    @preproc_loop sample_tensors sample_geometry
      (data_path_root sample_root "pusht") sample_capture = (st, None)
    /\ td_data st = Some cells
    /\ length cells = 10
    /\ idxtd st = 8.
Proof.
  destruct (@store_layout sample_tensors sample_geometry
              (data_path_root sample_root "pusht") sample_capture)
    as (st & cells & Hrun & Htd & Hlen & _ & _ & _ & Hidx & _).
  - reflexivity.
  - reflexivity.
  - exists st, cells. repeat split; assumption.
Defined.

Lemma sealed_store_of_two_episodes_witness :
  exists st,
    fst (@_download_and_preproc sample_tensors sample_geometry sample_outside
           sample_root "pusht" world_raw) = Ok st
    /\ storage_len st = 10.
Proof.
  destruct (@sealed_store_of_two_episodes sample_tensors sample_geometry
              sample_outside sample_root "pusht" world_raw sample_capture)
    as (st & row3 & row7 & Hrun & _ & Hlen & _).
  - reflexivity.
  - reflexivity.
  - reflexivity.
  - reflexivity.
  - reflexivity.
  - exists st. split; [exact Hrun | exact Hlen].
Defined.

(** In the world left by the first construction the store exists, and a
    construction changes nothing. *)
Lemma existing_store_is_opened_witness :
  snd (@__init__ sample_tensors sample_geometry sample_outside
         sample_args world_built) = world_built.
Proof.
  apply (@existing_store_is_opened sample_tensors sample_geometry sample_outside
           sample_args world_built).
  reflexivity.
Defined.

(** The first frame with the block away from the goal, or on it. *)
Lemma first_frame_label_discarded_witness :
  exists rows evs evs',
    @make_episode sample_tensors sample_geometry the_goal_body
      (data_img sample_capture) (off_goal 0 :: tl (data_state sample_capture))
      (data_action sample_capture) (get_episode_idxs sample_capture) 0 0 5
    = Ok (rows, evs)
    /\ @make_episode sample_tensors sample_geometry the_goal_body
         (data_img sample_capture) (on_goal 0 :: tl (data_state sample_capture))
         (data_action sample_capture) (get_episode_idxs sample_capture) 0 0 5
       = Ok (rows, evs').
Proof.
  destruct (@first_frame_label_discarded sample_tensors sample_geometry
              the_goal_body (data_img sample_capture) []
              (tl (data_state sample_capture)) (off_goal 0) (on_goal 0)
              (data_action sample_capture) (get_episode_idxs sample_capture) 0 5)
    as (rows & evs & evs' & Hrun & _ & _ & Hrun').
  - reflexivity.
  - cbn. lia.
  - cbn. lia.
  - cbn. lia.
  - cbn. lia.
  - cbn. lia.
  - reflexivity.
  - reflexivity.
  - exists rows, evs, evs'. split; [exact Hrun | exact Hrun'].
Defined.

Lemma constructor_guards_witness :
  @__init__ sample_tensors sample_geometry sample_outside
    (mkArgs "pusht" false (Some 4%Z) (Some 8%Z) false (Some sample_root))
    world_raw
  = (Raise ValueError, world_raw).
Proof.
  apply (@constructor_guards sample_tensors sample_geometry sample_outside
           (mkArgs "pusht" false (Some 4%Z) (Some 8%Z) false (Some sample_root))
           world_raw).
  right. split; reflexivity.
Defined.

(** C5, against the claim: the store built from two episodes of five
    frames has 10 rows, of which 8 were written. *)
Lemma sealed_store_keeps_the_slack :
  exists self,
    fst (@__init__ sample_tensors sample_geometry sample_outside
           sample_args world_raw) = Ok self
    /\ num_samples self = 10
    /\ num_samples self <> 8
    /\ length (filter (fun c => match c with Some _ => true | None => false end)
                 (td_cells (_storage (storage self)))) = 8.
Proof.
  eexists. split; [reflexivity |].
  split; [reflexivity |]. split; [discriminate | reflexivity].
Qed.

(** C10, against the claim: with both [num_slices] and [slice_len] given
    and [streaming=True], the error is [NotImplementedError], not
    [ValueError]. *)
Lemma streaming_guard_comes_first :
  fst (@__init__ sample_tensors sample_geometry sample_outside
         (mkArgs "pusht" true (Some 4%Z) (Some 8%Z) false (Some sample_root))
         world_raw)
  = Raise NotImplementedError
  /\ fst (@__init__ sample_tensors sample_geometry sample_outside
            (mkArgs "pusht" true (Some 4%Z) (Some 8%Z) false (Some sample_root))
            world_raw)
     <> Raise ValueError.
Proof. split; [reflexivity | discriminate]. Qed.

(** Concrete runs of the further properties, on the sample captures. *)

Lemma records_chain_witness :
  exists rows evs,
    @make_episode sample_tensors sample_geometry the_goal_body
      (data_img sample_capture) (data_state sample_capture)
      (data_action sample_capture) (get_episode_idxs sample_capture) 1 5 10
    = Ok (rows, evs).
Proof.
  destruct (@records_chain sample_tensors sample_geometry the_goal_body
              (data_img sample_capture) (data_state sample_capture)
              (data_action sample_capture) (get_episode_idxs sample_capture)
              1 5 10)
    as (rows & evs & Hrun & _).
  - reflexivity.
  - lia.
  - cbn. lia.
  - cbn. lia.
  - cbn. lia.
  - cbn. lia.
  - reflexivity.
  - exists rows, evs. exact Hrun.
Defined.

(** The last frame of the first sample episode, taken as an episode. *)
Lemma single_frame_episode_gives_no_record_witness :
  @make_episode sample_tensors sample_geometry the_goal_body
    (data_img sample_capture) (data_state sample_capture)
    (data_action sample_capture) (get_episode_idxs sample_capture) 0 4 5
  = Ok ([], [EvLabelFrame (256, 256)%float (np_pi / 4)%float]).
Proof.
  apply (@single_frame_episode_gives_no_record sample_tensors sample_geometry
           the_goal_body (data_img sample_capture) (data_state sample_capture)
           (data_action sample_capture) (get_episode_idxs sample_capture)
           0 4 (on_goal 4)).
  - reflexivity.
  - cbn. lia.
  - cbn. lia.
  - cbn. lia.
  - reflexivity.
  - reflexivity.
Defined.

Lemma empty_or_reversed_episode_raises_witness :
  @make_episode sample_tensors sample_geometry the_goal_body
    (data_img sample_capture) (data_state sample_capture)
    (data_action sample_capture) (get_episode_idxs sample_capture) 1 5 5
  = Raise IndexError
  /\ @make_episode sample_tensors sample_geometry the_goal_body
       (data_img sample_capture) (data_state sample_capture)
       (data_action sample_capture) (get_episode_idxs sample_capture) 1 5 3
     = Raise RuntimeError.
Proof.
  split.
  - apply (@empty_or_reversed_episode_raises sample_tensors sample_geometry
             the_goal_body (data_img sample_capture) (data_state sample_capture)
             (data_action sample_capture) (get_episode_idxs sample_capture)
             1 5 5).
    lia.
  - apply (@empty_or_reversed_episode_raises sample_tensors sample_geometry
             the_goal_body (data_img sample_capture) (data_state sample_capture)
             (data_action sample_capture) (get_episode_idxs sample_capture)
             1 5 3).
    lia.
Defined.

(** Frames 3 to 6 of the sample capture straddle the two episodes. *)
Lemma episode_id_mismatch_raises_witness :
  @make_episode sample_tensors sample_geometry the_goal_body
    (data_img sample_capture) (data_state sample_capture)
    (data_action sample_capture) (get_episode_idxs sample_capture) 0 3 7
  = Raise AssertionError.
Proof.
  apply (@episode_id_mismatch_raises sample_tensors sample_geometry
           the_goal_body (data_img sample_capture) (data_state sample_capture)
           (data_action sample_capture) (get_episode_idxs sample_capture)
           0 3 7 2 1).
  - lia.
  - reflexivity.
  - discriminate.
Defined.


Lemma store_row_is_raw_frame_witness :
  exists st cells,
    @preproc_loop sample_tensors sample_geometry
      (data_path_root sample_root "pusht") sample_capture = (st, None)
    /\ td_data st = Some cells.
Proof.
  destruct (@store_row_is_raw_frame sample_tensors sample_geometry
              (data_path_root sample_root "pusht") sample_capture)
    as (st & cells & Hrun & Htd & _).
  - reflexivity.
  - reflexivity.
  - exists st, cells. split; [exact Hrun | exact Htd].
Defined.

Lemma frame_ids_count_from_zero_witness :
  exists st cells,
    @preproc_loop sample_tensors sample_geometry
      (data_path_root sample_root "pusht") sample_capture = (st, None)
    /\ td_data st = Some cells.
Proof.
  destruct (@frame_ids_count_from_zero sample_tensors sample_geometry
              (data_path_root sample_root "pusht") sample_capture)
    as (st & cells & Hrun & Htd & _).
  - reflexivity.
  - reflexivity.
  - exists st, cells. split; [exact Hrun | exact Htd].
Defined.

Lemma every_frame_labelled_once_witness :
  exists st,
    @preproc_loop sample_tensors sample_geometry
      (data_path_root sample_root "pusht") sample_capture = (st, None)
    /\ length (labels_of (trace st)) = 10.
Proof.
  destruct (@every_frame_labelled_once sample_tensors sample_geometry
              (data_path_root sample_root "pusht") sample_capture)
    as (st & Hrun & Hlabels).
  - reflexivity.
  - reflexivity.
  - exists st. split; [exact Hrun |]. rewrite Hlabels. reflexivity.
Defined.

Lemma store_allocated_once_witness :
  exists st,
    @preproc_loop sample_tensors sample_geometry
      (data_path_root sample_root "pusht") sample_capture = (st, None)
    /\ allocations_of (trace st) = [(data_path_root sample_root "pusht", 10)].
Proof.
  destruct (@store_allocated_once sample_tensors sample_geometry
              (data_path_root sample_root "pusht") sample_capture)
    as (st & Hrun & Halloc).
  - reflexivity.
  - reflexivity.
  - exists st. split; [exact Hrun | exact Halloc].
Defined.

Lemma single_frame_first_episode_aborts_witness :
  fst (@_download_and_preproc sample_tensors sample_geometry sample_outside
         sample_root "pusht" world_one_frame_first) = Raise IndexError.
Proof.
  apply (@single_frame_first_episode_aborts sample_tensors sample_geometry
           sample_outside sample_root "pusht" world_one_frame_first
           one_frame_first_capture [10] (off_goal 0)).
  - reflexivity.
  - reflexivity.
  - reflexivity.
  - cbn. lia.
  - cbn. lia.
  - reflexivity.
  - reflexivity.
  - reflexivity.
Defined.

Lemma failed_build_leaves_partial_store_witness :
  fst (@_download_and_preproc sample_tensors sample_geometry sample_outside
         sample_root "pusht" world_wrong_ids) = Raise AssertionError
  /\ @_is_downloaded sample_tensors sample_root "pusht"
       (snd (@_download_and_preproc sample_tensors sample_geometry
               sample_outside sample_root "pusht" world_wrong_ids)) = true.
Proof.
  destruct (@failed_build_leaves_partial_store sample_tensors sample_geometry
              sample_outside sample_root "pusht" world_wrong_ids
              wrong_ids_capture 5 10 [] 2 4)
    as (Hraise & Hdir & _).
  - reflexivity.
  - reflexivity.
  - reflexivity.
  - lia.
  - cbn. lia.
  - cbn. lia.
  - cbn. lia.
  - cbn. lia.
  - reflexivity.
  - lia.
  - reflexivity.
  - discriminate.
  - reflexivity.
  - split; [exact Hraise | exact Hdir].
Defined.


Lemma no_download_when_capture_is_on_disk_witness :
  downloads_of
    (log (snd (@_download_and_preproc sample_tensors sample_geometry
                 sample_outside sample_root "pusht" world_raw)))
  = [].
Proof.
  apply (@no_download_when_capture_is_on_disk sample_tensors sample_geometry
           sample_outside sample_root "pusht" world_raw).
  reflexivity.
Defined.

Lemma construction_then_reopen_witness :
  exists self,
    @__init__ sample_tensors sample_geometry sample_outside sample_args world_built
    = (Ok self, world_built).
Proof.
  destruct (@__init__ sample_tensors sample_geometry sample_outside
              sample_args world_raw) as [[self|e] w1] eqn:Hrun.
  - exists self.
    assert (Hw : w1 = world_built)
      by (unfold world_built; rewrite Hrun; reflexivity).
    rewrite <- Hw.
    exact (@construction_then_reopen sample_tensors sample_geometry
             sample_outside sample_args world_raw w1 self Hrun).
  - discriminate Hrun.
Defined.

Lemma fresh_build_succeeds_witness :
  exists self w1,
    @__init__ sample_tensors sample_geometry sample_outside sample_args world_raw
    = (Ok self, w1)
    /\ num_samples self = 10.
Proof.
  destruct (@fresh_build_succeeds sample_tensors sample_geometry sample_outside
              sample_args world_raw sample_capture)
    as (self & w1 & Hrun & Hlen & _).
  - reflexivity.
  - reflexivity.
  - reflexivity.
  - reflexivity.
  - reflexivity.
  - reflexivity.
  - reflexivity.
  - reflexivity.
  - exists self, w1. split; [exact Hrun | exact Hlen].
Defined.
